(** * avalanchego API clients: health, info and AVM

    A shallow embedding of the three JSON-RPC clients
    ([api/health/client.go], the info client and [vms/avm/client.go]) and
    of the collaborators they call, followed by the properties of the
    specification that concern them.

    Layout:
    - Go data: [int], [time.Duration], [error];
    - the declarations the clients import, the argument and reply structs,
      and the universe of reply shapes;
    - [formatting]: the hex formatter the AVM client calls;
    - effects: computations over the outside world that report their events;
    - [rpc]: the endpoint requester;
    - [health], [info], [avm]: the clients;
    - sample declarations and stub endpoints;
    - facts, then the properties of the specification, each with a run on
      concrete inputs. *)

From Stdlib Require Import ZArith List String Ascii Bool Lia.
From Stdlib Require Import Strings.Byte.
Import ListNotations.
Local Open Scope string_scope.
Local Open Scope list_scope.
Local Open Scope Z_scope.

(** ** Go data *)

(** Go's [int] on a 64-bit platform. *)
Definition min_int : Z := - 2 ^ 63.
Definition max_int : Z := 2 ^ 63 - 1.

(** [i++] on an [int]: two's complement wrap-around. *)
Definition int_incr (i : Z) : Z :=
  if i + 1 >? max_int then min_int else i + 1.

(** [time.Duration]: a count of nanoseconds. *)
Definition Duration : Type := Z.
Definition Millisecond : Duration := 1000000.

(** Go's [error] values.  The first five are the taxonomy of the
    requester (spec, section 7); the next four are the failures of the hex
    formatter; [OtherError] stands for any other error value. *)
Inductive error : Type :=
| EncodingError
| TransportError (cause : string)
| TimeoutError
| RemoteError (code : Z) (message : string)
| DecodingError
| errMissingHexPrefix
| errInvalidHex
| errMissingChecksum
| errBadChecksum
| OtherError (msg : string).

(** ** Declarations of other packages *)

(** The clients import types and constants of packages whose declarations
    are not among the sources ([ids], [snow/choices], [utils/formatting],
    [api], [network], and the service files of the AVM).  Those of which the
    clients use nothing but the name are taken as parameters, each type
    with the zero value Go gives it where a client allocates one. *)
Class Declarations : Type := {
  (** [ids.ID], its zero value [ids.ID{}] and the constant [ids.Empty] *)
  ID : Type;
  ID_zero : ID;
  Empty : ID;
  (** [choices.Status], its zero value and [choices.Unknown] *)
  Status : Type;
  Status_zero : Status;
  Unknown : Status;
  (** [formatting.Encoding], its zero value and [formatting.HexEncoding] *)
  Encoding : Type;
  Encoding_zero : Encoding;
  HexEncoding : Encoding;
  (** [api.UserPass], [avm.Holder], [avm.Owners], [network.PeerID] *)
  UserPass : Type;
  Holder : Type;
  Owners : Type;
  PeerID : Type;
  (** replies the AVM client hands back whole *)
  GetAssetDescriptionReply : Type;
  GetAssetDescriptionReply_zero : GetAssetDescriptionReply;
  GetBalanceReply : Type;
  GetBalanceReply_zero : GetBalanceReply;
  GetAllBalancesReply : Type;
  GetAllBalancesReply_zero : GetAllBalancesReply;
  (** [formatting.Hex]: prefix, checksum and checksum length *)
  hexPrefix : string;
  checksumLen : nat;
  Checksum : list byte -> list byte
}.

(** ** Argument and reply structs *)

(** The structs are declared outside the sources; each record has the
    fields the clients set in a composite literal or read from a reply,
    under the name [<struct>_<field>]. *)
Section Structs.
Context {D : Declarations}.

(** *** package api *)

Record FormattedTx : Type := {
  FormattedTx_Tx : string;
  FormattedTx_Encoding : Encoding
}.

Record JSONTxID : Type := { JSONTxID_TxID : ID }.

Record GetTxArgs : Type := {
  GetTxArgs_TxID : ID;
  GetTxArgs_Encoding : Encoding
}.

Record JSONAddress : Type := { JSONAddress_Address : string }.

Record JSONAddresses : Type := { JSONAddresses_Addresses : list string }.

Record JSONFromAddrs : Type := { JSONFromAddrs_From : list string }.

Record JSONChangeAddr : Type := { JSONChangeAddr_ChangeAddr : string }.

Record JSONSpendHeader : Type := {
  JSONSpendHeader_UserPass : UserPass;
  JSONSpendHeader_JSONFromAddrs : JSONFromAddrs;
  JSONSpendHeader_JSONChangeAddr : JSONChangeAddr
}.

(** *** package avm *)

Record Index : Type := {
  Index_Address : string;
  Index_UTXO : string
}.

Record GetUTXOsArgs : Type := {
  GetUTXOsArgs_Addresses : list string;
  GetUTXOsArgs_Limit : Z;
  GetUTXOsArgs_StartIndex : Index;
  GetUTXOsArgs_Encoding : Encoding
}.

Record GetUTXOsReply : Type := {
  GetUTXOsReply_UTXOs : list string;
  GetUTXOsReply_EndIndex : Index
}.

Record GetTxStatusReply : Type := { GetTxStatusReply_Status : Status }.

Record GetAssetDescriptionArgs : Type := {
  GetAssetDescriptionArgs_AssetID : string
}.

Record GetBalanceArgs : Type := {
  GetBalanceArgs_Address : string;
  GetBalanceArgs_AssetID : string
}.

Record CreateAssetArgs : Type := {
  CreateAssetArgs_JSONSpendHeader : JSONSpendHeader;
  CreateAssetArgs_Name : string;
  CreateAssetArgs_Symbol : string;
  CreateAssetArgs_Denomination : byte;
  CreateAssetArgs_InitialHolders : list Holder;
  CreateAssetArgs_MinterSets : list Owners
}.

Record CreateNFTAssetArgs : Type := {
  CreateNFTAssetArgs_JSONSpendHeader : JSONSpendHeader;
  CreateNFTAssetArgs_Name : string;
  CreateNFTAssetArgs_Symbol : string;
  CreateNFTAssetArgs_MinterSets : list Owners
}.

Record FormattedAssetID : Type := { FormattedAssetID_AssetID : ID }.

Record ExportKeyArgs : Type := {
  ExportKeyArgs_UserPass : UserPass;
  ExportKeyArgs_Address : string
}.

Record ExportKeyReply : Type := { ExportKeyReply_PrivateKey : string }.

Record ImportKeyArgs : Type := {
  ImportKeyArgs_UserPass : UserPass;
  ImportKeyArgs_PrivateKey : string
}.

Record SendOutput : Type := {
  SendOutput_Amount : Z;
  SendOutput_AssetID : string;
  SendOutput_To : string
}.

Record SendArgs : Type := {
  SendArgs_JSONSpendHeader : JSONSpendHeader;
  SendArgs_SendOutput : SendOutput
}.

Record SendMultipleArgs : Type := {
  SendMultipleArgs_JSONSpendHeader : JSONSpendHeader;
  SendMultipleArgs_Outputs : list SendOutput
}.

Record MintArgs : Type := {
  MintArgs_JSONSpendHeader : JSONSpendHeader;
  MintArgs_Amount : Z;
  MintArgs_AssetID : string;
  MintArgs_To : string
}.

Record SendNFTArgs : Type := {
  SendNFTArgs_JSONSpendHeader : JSONSpendHeader;
  SendNFTArgs_AssetID : string;
  SendNFTArgs_GroupID : Z;
  SendNFTArgs_To : string
}.

Record MintNFTArgs : Type := {
  MintNFTArgs_JSONSpendHeader : JSONSpendHeader;
  MintNFTArgs_AssetID : string;
  MintNFTArgs_Payload : string;
  MintNFTArgs_Encoding : Encoding;
  MintNFTArgs_To : string
}.

Record ImportArgs : Type := {
  ImportArgs_UserPass : UserPass;
  ImportArgs_To : string;
  ImportArgs_SourceChain : string
}.

Record ExportAVAXArgs : Type := {
  ExportAVAXArgs_JSONSpendHeader : JSONSpendHeader;
  ExportAVAXArgs_Amount : Z;
  ExportAVAXArgs_To : string
}.

Record ExportArgs : Type := {
  ExportArgs_ExportAVAXArgs : ExportAVAXArgs;
  ExportArgs_AssetID : string
}.

(** *** package health *)

Record GetLivenessReply : Type := { GetLivenessReply_Healthy : bool }.

(** *** package info *)

Record GetNodeIDReply : Type := { GetNodeIDReply_NodeID : string }.

Record GetNetworkIDReply : Type := { GetNetworkIDReply_NetworkID : Z }.

Record GetNetworkNameReply : Type := { GetNetworkNameReply_NetworkName : string }.

Record GetBlockchainIDReply : Type := { GetBlockchainIDReply_BlockchainID : string }.

Record PeersReply : Type := { PeersReply_Peers : list PeerID }.

Record IsBootstrappedArgs : Type := { IsBootstrappedArgs_Chain : string }.

Record IsBootstrappedResponse : Type := {
  IsBootstrappedResponse_IsBootstrapped : bool
}.

(** *** What a caller passes as [params interface{}] *)

Inductive Args : Type :=
| NoArgs                                        (* struct{}{} *)
| OfFormattedTx (a : FormattedTx)
| OfJSONTxID (a : JSONTxID)
| OfGetTxArgs (a : GetTxArgs)
| OfGetUTXOsArgs (a : GetUTXOsArgs)
| OfGetAssetDescriptionArgs (a : GetAssetDescriptionArgs)
| OfGetBalanceArgs (a : GetBalanceArgs)
| OfJSONAddress (a : JSONAddress)
| OfCreateAssetArgs (a : CreateAssetArgs)
| OfCreateNFTAssetArgs (a : CreateNFTAssetArgs)
| OfUserPass (a : UserPass)
| OfExportKeyArgs (a : ExportKeyArgs)
| OfImportKeyArgs (a : ImportKeyArgs)
| OfSendArgs (a : SendArgs)
| OfSendMultipleArgs (a : SendMultipleArgs)
| OfMintArgs (a : MintArgs)
| OfSendNFTArgs (a : SendNFTArgs)
| OfMintNFTArgs (a : MintNFTArgs)
| OfImportArgs (a : ImportArgs)
| OfExportAVAXArgs (a : ExportAVAXArgs)
| OfExportArgs (a : ExportArgs)
| OfIsBootstrappedArgs (a : IsBootstrappedArgs).

(** *** What a caller passes as [reply interface{}] *)

(** The reply is a pointer to a struct of one of these shapes; the shape
    decides how the response is decoded. *)
Inductive ReplyTy : Type :=
| TGetLivenessReply
| TGetNodeIDReply
| TGetNetworkIDReply
| TGetNetworkNameReply
| TGetBlockchainIDReply
| TPeersReply
| TIsBootstrappedResponse
| TJSONTxID
| TGetTxStatusReply
| TFormattedTx
| TGetUTXOsReply
| TGetAssetDescriptionReply
| TGetBalanceReply
| TGetAllBalancesReply
| TFormattedAssetID
| TJSONAddress
| TJSONAddresses
| TExportKeyReply.

Definition ReplyOf (t : ReplyTy) : Type :=
  match t with
  | TGetLivenessReply => GetLivenessReply
  | TGetNodeIDReply => GetNodeIDReply
  | TGetNetworkIDReply => GetNetworkIDReply
  | TGetNetworkNameReply => GetNetworkNameReply
  | TGetBlockchainIDReply => GetBlockchainIDReply
  | TPeersReply => PeersReply
  | TIsBootstrappedResponse => IsBootstrappedResponse
  | TJSONTxID => JSONTxID
  | TGetTxStatusReply => GetTxStatusReply
  | TFormattedTx => FormattedTx
  | TGetUTXOsReply => GetUTXOsReply
  | TGetAssetDescriptionReply => GetAssetDescriptionReply
  | TGetBalanceReply => GetBalanceReply
  | TGetAllBalancesReply => GetAllBalancesReply
  | TFormattedAssetID => FormattedAssetID
  | TJSONAddress => JSONAddress
  | TJSONAddresses => JSONAddresses
  | TExportKeyReply => ExportKeyReply
  end.

(** [&T{}]: what a freshly allocated reply holds. *)
Definition zero (t : ReplyTy) : ReplyOf t :=
  match t with
  | TGetLivenessReply => {| GetLivenessReply_Healthy := false |}
  | TGetNodeIDReply => {| GetNodeIDReply_NodeID := "" |}
  | TGetNetworkIDReply => {| GetNetworkIDReply_NetworkID := 0 |}
  | TGetNetworkNameReply => {| GetNetworkNameReply_NetworkName := "" |}
  | TGetBlockchainIDReply => {| GetBlockchainIDReply_BlockchainID := "" |}
  | TPeersReply => {| PeersReply_Peers := [] |}
  | TIsBootstrappedResponse => {| IsBootstrappedResponse_IsBootstrapped := false |}
  | TJSONTxID => {| JSONTxID_TxID := ID_zero |}
  | TGetTxStatusReply => {| GetTxStatusReply_Status := Status_zero |}
  | TFormattedTx => {| FormattedTx_Tx := ""; FormattedTx_Encoding := Encoding_zero |}
  | TGetUTXOsReply =>
      {| GetUTXOsReply_UTXOs := [];
         GetUTXOsReply_EndIndex := {| Index_Address := ""; Index_UTXO := "" |} |}
  | TGetAssetDescriptionReply => GetAssetDescriptionReply_zero
  | TGetBalanceReply => GetBalanceReply_zero
  | TGetAllBalancesReply => GetAllBalancesReply_zero
  | TFormattedAssetID => {| FormattedAssetID_AssetID := ID_zero |}
  | TJSONAddress => {| JSONAddress_Address := "" |}
  | TJSONAddresses => {| JSONAddresses_Addresses := [] |}
  | TExportKeyReply => {| ExportKeyReply_PrivateKey := "" |}
  end.

End Structs.

(** ** utils/formatting *)

Module formatting.

(** *** encoding/hex, as the formatter uses it *)

(** Go's encoding/hex and the [%x] verb, which the model of
    [formatting.Hex] below is built on. *)

Definition hextable : string := "0123456789abcdef".

Definition hexdigit (n : N) : ascii :=
  match String.get (N.to_nat n) hextable with
  | Some c => c
  | None => "0"%char
  end.

(** [fromHexChar]: digits and both cases of letters. *)
Definition fromHexChar (c : ascii) : option N :=
  let n := N_of_ascii c in
  if ((48 <=? n) && (n <=? 57))%N then Some (n - 48)%N
  else if ((97 <=? n) && (n <=? 102))%N then Some (n - 97 + 10)%N
  else if ((65 <=? n) && (n <=? 70))%N then Some (n - 65 + 10)%N
  else None.

Definition byte_of_nibbles (hi lo : N) : byte :=
  match Byte.of_N (N.lor (N.shiftl hi 4) lo) with
  | Some b => b
  | None => x00
  end.

(** [fmt.Sprintf("%x", bs)]: two lower-case digits per byte. *)
Fixpoint EncodeToString (bs : list byte) : string :=
  match bs with
  | [] => EmptyString
  | b :: rest =>
      String (hexdigit (N.shiftr (Byte.to_N b) 4))
        (String (hexdigit (N.land (Byte.to_N b) 15)) (EncodeToString rest))
  end.

(** [hex.DecodeString]: fails on an odd length and on a character that
    is not a hex digit. *)
Fixpoint DecodeString (s : string) : option (list byte) :=
  match s with
  | EmptyString => Some []
  | String _ EmptyString => None
  | String c1 (String c2 rest) =>
      match fromHexChar c1, fromHexChar c2, DecodeString rest with
      | Some hi, Some lo, Some bs => Some (byte_of_nibbles hi lo :: bs)
      | _, _, _ => None
      end
  end.

Fixpoint strip_prefix (p s : string) : option string :=
  match p with
  | EmptyString => Some s
  | String a p' =>
      match s with
      | String b s' => if Ascii.eqb a b then strip_prefix p' s' else None
      | EmptyString => None
      end
  end.

Definition bytes_eqb (a b : list byte) : bool :=
  if list_eq_dec Byte.byte_eq_dec a b then true else false.

(** *** formatting.Hex *)

(** [formatting.Hex] is not among the sources and the spec only names it as
    a hex encoding helper.  It is modelled as the hex text of the bytes
    followed by their checksum, behind a prefix; the prefix, the checksum
    function and its length are the parameters [hexPrefix], [Checksum] and
    [checksumLen] of the declarations, so that the plain format (empty
    prefix, no checksum) and the prefixed, checksummed one are both
    instances. *)
Section Hex.
Context {D : Declarations}.

(** Modelled from the spec: [type Hex struct { Bytes []byte }] of
    utils/formatting, which is not among the sources. *)
Record Hex : Type := { Bytes : list byte }.

(** [Hex{}] *)
Definition Hex_zero : Hex := {| Bytes := [] |}.

(** Modelled from the spec: [func (h Hex) String() string] of
    utils/formatting, which is not among the sources; the prefix, then the
    hex text of the bytes and of their checksum. *)
Definition String_ (h : Hex) : string :=
  (hexPrefix ++ EncodeToString (Bytes h ++ Checksum (Bytes h)))%string.

(** Modelled from the spec: [func (h *Hex) FromString(s string) error] of
    utils/formatting, which is not among the sources; the inverse of
    [String].  The result is the receiver after the call and the error; the
    receiver is written on success only. *)
Definition FromString (h : Hex) (s : string) : Hex * option error :=
  match strip_prefix hexPrefix s with
  | None => (h, Some errMissingHexPrefix)
  | Some body =>
      match DecodeString body with
      | None => (h, Some errInvalidHex)
      | Some b =>
          if (List.length b <? checksumLen)%nat then (h, Some errMissingChecksum)
          else
            let rawBytes := firstn (List.length b - checksumLen) b in
            let checksum := skipn (List.length b - checksumLen) b in
            if bytes_eqb checksum (Checksum rawBytes)
            then ({| Bytes := rawBytes |}, None)
            else (h, Some errBadChecksum)
      end
  end.
End Hex.

End formatting.

(** ** Effects *)

(** Everything outside the client (the network, the node at the other
    end, the clock) is a state of type [Env]; [elapse d] is what the
    passing of [d] nanoseconds does to it. *)
Class Outside : Type := {
  Env : Type;
  elapse : Duration -> Env -> Env
}.

Section Effects.
Context {D : Declarations} {W : Outside}.

(** What a client does to the outside, in order: it sleeps, and it calls
    [SendRequest] with a method name, parameters and a reply of shape [t]
    holding [reply]; [outcome] is what the reply holds after the call and
    the error returned. *)
Inductive Event : Type :=
| EvSleep (d : Duration)
| EvSendRequest (method : string) (params : Args) (t : ReplyTy)
    (reply : ReplyOf t) (outcome : ReplyOf t * option error).

(** A computation returns its result, the events it caused and the
    outside as it leaves it. *)
Definition M (A : Type) : Type := Env -> A * list Event * Env.

Definition ret {A : Type} (a : A) : M A := fun e => (a, [], e).

Definition bind {A B : Type} (m : M A) (f : A -> M B) : M B :=
  fun e =>
    let '(a, l1, e1) := m e in
    let '(b, l2, e2) := f a e1 in
    (b, (l1 ++ l2)%list, e2).

(** [time.Sleep(d)] *)
Definition Sleep (d : Duration) : M unit :=
  fun e => (tt, [EvSleep d], elapse d e).

(** [rpc.EndpointRequester]: the interface the clients hold.  An
    implementation says, for a requester value, what a call does to the
    reply and to the outside, and which error it returns. *)
Class EndpointRequester (R : Type) : Type := {
  SendRequest :
    R -> string -> Args -> forall t : ReplyTy, ReplyOf t ->
    Env -> (ReplyOf t * option error) * Env
}.

(** [r.SendRequest(method, params, reply)] at a call site: the call is
    recorded and answered by the implementation. *)
Definition call_SendRequest {R : Type} `{EndpointRequester R}
    (r : R) (method : string) (params : Args) (t : ReplyTy) (reply : ReplyOf t)
  : M (ReplyOf t * option error) :=
  fun e =>
    let '(outcome, e') := SendRequest r method params t reply e in
    (outcome, [EvSendRequest method params t reply outcome], e').

(** What a computation does to the outside: its events and the outside
    after it (the value returned is dropped). *)
Definition effects {A : Type} (m : M A) (e : Env) : list Event * Env :=
  let '(_, l, e') := m e in (l, e').

(** Observations on a list of events. *)
Definition is_request (ev : Event) : bool :=
  match ev with
  | EvSendRequest _ _ _ _ _ => true
  | EvSleep _ => false
  end.

Definition is_sleep (ev : Event) : bool :=
  match ev with
  | EvSleep _ => true
  | EvSendRequest _ _ _ _ _ => false
  end.

(** The call returned a non-nil error. *)
Definition request_failed (ev : Event) : bool :=
  match ev with
  | EvSendRequest _ _ _ _ (_, Some _) => true
  | _ => false
  end.

(** The method names passed to [SendRequest], in order. *)
Fixpoint dispatched (evs : list Event) : list string :=
  match evs with
  | [] => []
  | EvSendRequest method _ _ _ _ :: rest => method :: dispatched rest
  | EvSleep _ :: rest => dispatched rest
  end.

Definition requests (evs : list Event) : nat := List.length (filter is_request evs).
Definition sleeps (evs : list Event) : nat := List.length (filter is_sleep evs).

End Effects.

Declare Scope go_scope.
Delimit Scope go_scope with go.
Notation "x <- c1 ;; c2" := (bind c1 (fun x => c2))
  (at level 61, c1 at next level, right associativity) : go_scope.
Notation "' pat <- c1 ;; c2" :=
  (bind c1 (fun x => match x with pat => c2 end))
  (at level 61, pat pattern, c1 at next level, right associativity) : go_scope.
Notation "c1 ;; c2" := (bind c1 (fun _ => c2))
  (at level 61, right associativity) : go_scope.

(** ** utils/rpc *)

Module rpc.

(** Modelled from the spec: the endpoint requester of utils/rpc is not
    among the sources.  Section 3 gives its data: an immutable
    configuration of base address, URI path, protocol namespace and request
    timeout. *)
Record Requester : Type := {
  uri : string;          (* base address *)
  extension : string;    (* URI path *)
  base : string;         (* protocol namespace *)
  timeout : Duration
}.

(** Modelled from the spec: [rpc.NewEndpointRequester(uri, extension,
    base, timeout)] of utils/rpc, which is not among the sources; it holds
    its four arguments. *)
Definition NewEndpointRequester (uri extension base : string) (timeout : Duration)
  : Requester :=
  {| uri := uri; extension := extension; base := base; timeout := timeout |}.

(** The envelopes of section 3, over the serialized form [Wire]. *)
Record RequestEnvelope (Wire : Type) : Type := {
  envelope_method : string;      (* "<namespace>.<method>" *)
  envelope_params : Wire;
  envelope_id : Z                (* correlation identifier *)
}.

Inductive ResponseEnvelope (Wire : Type) : Type :=
| ResultPayload (payload : Wire)
| ErrorPayload (code : Z) (message : string).

(** How a round trip ends. *)
Inductive Delivery (Wire : Type) : Type :=
| TimedOut
| Failed (cause : string)
| Received (response : ResponseEnvelope Wire).

Arguments ResultPayload {Wire} payload.
Arguments ErrorPayload {Wire} code message.
Arguments TimedOut {Wire}.
Arguments Failed {Wire} cause.
Arguments Received {Wire} response.

(** The output location a caller owns: what it holds and how many times
    it has been written. *)
Record Slot (T : Type) : Type := { content : T; writes : nat }.
Arguments content {T} s.
Arguments writes {T} s.

Definition populate {T : Type} (v : T) (s : Slot T) : Slot T :=
  {| content := v; writes := S (writes s) |}.

Section Transport.
Context {D : Declarations} {W : Outside}.

(** The serialization codec and the transport client.  [decode t p old]
    is what a reply of shape [t] holding [old] holds after [p] is
    decoded into it, when [p] matches the shape; [next_id] draws the
    correlation identifier of a call; [transmit url timeout request] is
    the blocking round trip. *)
Class Collaborators : Type := {
  Wire : Type;
  encode : Args -> option Wire;
  decode : forall t : ReplyTy, Wire -> ReplyOf t -> option (ReplyOf t);
  next_id : Env -> Z * Env;
  transmit : string -> Duration -> RequestEnvelope Wire -> Env -> Delivery Wire * Env
}.

Context {C : Collaborators}.

(** Modelled from the spec: [SendRequest(method, params, resultOut)] of
    utils/rpc, which is not among the sources; section 4.1, steps 1 to 8,
    on the caller's output location.  The correlation identifier of
    section 3 is drawn when the envelope is built. *)
Definition SendRequest_steps (r : Requester) (method : string) (params : Args)
    (t : ReplyTy) (resultOut : Slot (ReplyOf t)) (e : Env)
  : (Slot (ReplyOf t) * option error) * Env :=
  (* 1. build the envelope: qualify the method name *)
  let name := (base r ++ "." ++ method)%string in
  let '(id, e) := next_id e in
  (* 2. serialize the parameters *)
  match encode params with
  | None => ((resultOut, Some EncodingError), e)
  | Some wire =>
      (* 3. transmit to base address + path, bounded by the timeout *)
      let request :=
        {| envelope_method := name; envelope_params := wire; envelope_id := id |} in
      let '(delivery, e) := transmit (uri r ++ extension r)%string (timeout r) request e in
      match delivery with
      (* 4. timeout *)
      | TimedOut => ((resultOut, Some TimeoutError), e)
      (* 5. transport failure *)
      | Failed cause => ((resultOut, Some (TransportError cause)), e)
      (* 6. error payload *)
      | Received (ErrorPayload code message) =>
          ((resultOut, Some (RemoteError code message)), e)
      (* 7. decode the result payload into resultOut *)
      | Received (ResultPayload payload) =>
          match decode t payload (content resultOut) with
          | None => ((resultOut, Some DecodingError), e)
          (* 8. nil only when decoding succeeds *)
          | Some v => ((populate v resultOut, None), e)
          end
      end
  end.

(** The requester as the clients see it, through the interface: the
    reply is the caller's output location. *)
#[export] Instance Requester_EndpointRequester : EndpointRequester Requester := {
  SendRequest r method params t reply e :=
    let '((slot, err), e') :=
      SendRequest_steps r method params t {| content := reply; writes := 0 |} e in
    ((content slot, err), e')
}.
End Transport.
End rpc.

(** ** api/health/client.go *)

Module health.

(** [type Client struct { requester rpc.EndpointRequester }] *)
Record Client (R : Type) : Type := { requester : R }.
Arguments requester {R} c.

(** [NewClient] *)
Definition NewClient (uri : string) (requestTimeout : Duration) : Client rpc.Requester :=
  {| requester := rpc.NewEndpointRequester uri "/ext/health" "health" requestTimeout |}.

Section Methods.
Context {D : Declarations} {W : Outside} {R : Type} {I : EndpointRequester R}.
Local Open Scope go_scope.

(** [GetLiveness] *)
Definition GetLiveness (c : Client R) : M (GetLivenessReply * option error) :=
  let res := zero TGetLivenessReply in
  '(res, err) <- call_SendRequest (requester c) "getLiveness" NoArgs TGetLivenessReply res ;;
  ret (res, err).

(** The events of the iterations run so far come before those of the
    rest of the loop. *)
Definition after_events {A : Type} (done : list Event)
    (rest : option (A * list Event * Env)) : option (A * list Event * Env) :=
  match rest with
  | Some (a, l, e) => Some (a, (done ++ l)%list, e)
  | None => None
  end.

(** The loop of [AwaitHealthy], from [i] on:
    [for ; i < checks; i++ { ... }; return false, nil].
    [fuel] bounds the number of iterations; [None] when it is used up
    before the loop ends. *)
Fixpoint AwaitHealthy_loop (fuel : nat) (c : Client R) (checks : Z)
    (interval : Duration) (i : Z) (e : Env)
  : option ((bool * option error) * list Event * Env) :=
  if i <? checks then
    match fuel with
    | O => None
    | S fuel' =>
        let '(_, l1, e1) := Sleep interval e in
        let '((res, err), l2, e2) := GetLiveness c e1 in
        match err with
        | Some _ =>
            (* continue *)
            after_events (l1 ++ l2)
              (AwaitHealthy_loop fuel' c checks interval (int_incr i) e2)
        | None =>
            if GetLivenessReply_Healthy res
            then Some ((true, None), (l1 ++ l2)%list, e2)
            else after_events (l1 ++ l2)
                   (AwaitHealthy_loop fuel' c checks interval (int_incr i) e2)
        end
    end
  else Some ((false, None), [], e).

(** [AwaitHealthy]: the loop from [i := 0], with fuel for [checks]
    iterations. *)
Definition AwaitHealthy (c : Client R) (checks : Z) (interval : Duration) (e : Env)
  : option ((bool * option error) * list Event * Env) :=
  AwaitHealthy_loop (Z.to_nat checks) c checks interval 0 e.

End Methods.
(** *** The poll, as seen from outside *)

Section Polling.
Context {D : Declarations} {W : Outside}.

(** What one liveness request gave: the reply after it and the error. *)
Definition Outcome : Type := (GetLivenessReply * option error)%type.

(** The request succeeded and the reply reports healthy. *)
Definition reports_healthy (o : Outcome) : bool :=
  match snd o with
  | None => GetLivenessReply_Healthy (fst o)
  | Some _ => false
  end.

(** The events of one iteration: a sleep of [interval], then one
    [getLiveness] request, which gave [o]. *)
Definition iteration (interval : Duration) (o : Outcome) : list Event :=
  [EvSleep interval;
   EvSendRequest "getLiveness" NoArgs TGetLivenessReply (zero TGetLivenessReply) o].

Definition iterations (interval : Duration) (os : list Outcome) : list Event :=
  flat_map (iteration interval) os.

(** [Polled n os healthy]: a poll with a budget of [n] iterations saw the
    outcomes [os] and answered [healthy].  Either all [n] iterations ran
    and none reported healthy, or the poll stopped at the first one that
    did, within the budget. *)
Inductive Polled (n : nat) : list Outcome -> bool -> Prop :=
| Polled_exhausted (os : list Outcome) :
    List.length os = n ->
    Forall (fun o => reports_healthy o = false) os ->
    Polled n os false
| Polled_healthy (before : list Outcome) (last : Outcome) :
    (List.length before < n)%nat ->
    Forall (fun o => reports_healthy o = false) before ->
    reports_healthy last = true ->
    Polled n (before ++ [last]) true.

End Polling.
End health.

(** ** The info client *)

Module info.

(** [type Client struct { requester rpc.EndpointRequester }] *)
Record Client (R : Type) : Type := { requester : R }.
Arguments requester {R} c.

(** [NewClient] *)
Definition NewClient (uri : string) (requestTimeout : Duration) : Client rpc.Requester :=
  {| requester := rpc.NewEndpointRequester uri "/ext/info" "info" requestTimeout |}.

Section Methods.
Context {D : Declarations} {W : Outside} {R : Type} {I : EndpointRequester R}.
Local Open Scope go_scope.

(** [GetNodeID] *)
Definition GetNodeID (c : Client R) : M (string * option error) :=
  let res := zero TGetNodeIDReply in
  '(res, err) <- call_SendRequest (requester c) "getNodeID" NoArgs TGetNodeIDReply res ;;
  ret (GetNodeIDReply_NodeID res, err).

(** [GetNetworkID]; [uint32(res.NetworkID)] keeps the value. *)
Definition GetNetworkID (c : Client R) : M (Z * option error) :=
  let res := zero TGetNetworkIDReply in
  '(res, err) <- call_SendRequest (requester c) "getNetworkID" NoArgs TGetNetworkIDReply res ;;
  ret (GetNetworkIDReply_NetworkID res, err).

(** [GetNetworkName] *)
Definition GetNetworkName (c : Client R) : M (string * option error) :=
  let res := zero TGetNetworkNameReply in
  '(res, err) <- call_SendRequest (requester c) "getNetworkName" NoArgs TGetNetworkNameReply res ;;
  ret (GetNetworkNameReply_NetworkName res, err).

(** [GetBlockchainID] *)
Definition GetBlockchainID (c : Client R) : M (string * option error) :=
  let res := zero TGetBlockchainIDReply in
  '(res, err) <- call_SendRequest (requester c) "getBlockchainID" NoArgs TGetBlockchainIDReply res ;;
  ret (GetBlockchainIDReply_BlockchainID res, err).

(** [Peers] *)
Definition Peers (c : Client R) : M (list PeerID * option error) :=
  let res := zero TPeersReply in
  '(res, err) <- call_SendRequest (requester c) "peers" NoArgs TPeersReply res ;;
  ret (PeersReply_Peers res, err).

(** [IsBootstrapped] *)
Definition IsBootstrapped (c : Client R) (chain : string) : M (bool * option error) :=
  let res := zero TIsBootstrappedResponse in
  '(res, err) <- call_SendRequest (requester c) "isBootstrapped"
                   (OfIsBootstrappedArgs {| IsBootstrappedArgs_Chain := chain |})
                   TIsBootstrappedResponse res ;;
  ret (IsBootstrappedResponse_IsBootstrapped res, err).

End Methods.
(** *** The public methods, as data *)

Section Calls.
Context {D : Declarations} {W : Outside} {R : Type} {I : EndpointRequester R}.

Inductive Call : Type :=
| CallGetNodeID
| CallGetNetworkID
| CallGetNetworkName
| CallGetBlockchainID
| CallPeers
| CallIsBootstrapped (chain : string).

(** The Go name of the method called. *)
Definition Call_name (i : Call) : string :=
  match i with
  | CallGetNodeID => "GetNodeID"
  | CallGetNetworkID => "GetNetworkID"
  | CallGetNetworkName => "GetNetworkName"
  | CallGetBlockchainID => "GetBlockchainID"
  | CallPeers => "Peers"
  | CallIsBootstrapped _ => "IsBootstrapped"
  end.

Definition Call_run (c : Client R) (i : Call) (e : Env) : list Event * Env :=
  match i with
  | CallGetNodeID => effects (GetNodeID c) e
  | CallGetNetworkID => effects (GetNetworkID c) e
  | CallGetNetworkName => effects (GetNetworkName c) e
  | CallGetBlockchainID => effects (GetBlockchainID c) e
  | CallPeers => effects (Peers c) e
  | CallIsBootstrapped chain => effects (IsBootstrapped c chain) e
  end.

(** The method name each public method has at its call site, and the
    shape of the reply it allocates. *)
Definition Call_method (i : Call) : string :=
  match i with
  | CallGetNodeID => "getNodeID"
  | CallGetNetworkID => "getNetworkID"
  | CallGetNetworkName => "getNetworkName"
  | CallGetBlockchainID => "getBlockchainID"
  | CallPeers => "peers"
  | CallIsBootstrapped _ => "isBootstrapped"
  end.

Definition Call_reply (i : Call) : ReplyTy :=
  match i with
  | CallGetNodeID => TGetNodeIDReply
  | CallGetNetworkID => TGetNetworkIDReply
  | CallGetNetworkName => TGetNetworkNameReply
  | CallGetBlockchainID => TGetBlockchainIDReply
  | CallPeers => TPeersReply
  | CallIsBootstrapped _ => TIsBootstrappedResponse
  end.

End Calls.
End info.

(** ** vms/avm/client.go *)

Module avm.
Import formatting.

(** [type Client struct { requester rpc.EndpointRequester }] *)
Record Client (R : Type) : Type := { requester : R }.
Arguments requester {R} c.

(** [NewClient]; [fmt.Sprintf("/ext/bc/%s", chain)] appends the chain. *)
Definition NewClient (uri chain : string) (requestTimeout : Duration)
  : Client rpc.Requester :=
  {| requester :=
       rpc.NewEndpointRequester uri ("/ext/bc/" ++ chain)%string "avm" requestTimeout |}.

Section Methods.
Context {D : Declarations} {W : Outside} {R : Type} {I : EndpointRequester R}.
Local Open Scope go_scope.

(** The spend header every spending call builds from its arguments. *)
Definition spendHeader (user : UserPass) (from : list string) (changeAddr : string)
  : JSONSpendHeader :=
  {| JSONSpendHeader_UserPass := user;
     JSONSpendHeader_JSONFromAddrs := {| JSONFromAddrs_From := from |};
     JSONSpendHeader_JSONChangeAddr := {| JSONChangeAddr_ChangeAddr := changeAddr |} |}.

(** [IssueTx] *)
Definition IssueTx (c : Client R) (txBytes : list byte) : M (ID * option error) :=
  let res := zero TJSONTxID in
  '(res, err) <- call_SendRequest (requester c) "issueTx"
                   (OfFormattedTx {| FormattedTx_Tx := String_ {| Bytes := txBytes |};
                             FormattedTx_Encoding := HexEncoding |})
                   TJSONTxID res ;;
  match err with
  | Some err => ret (Empty, Some err)
  | None => ret (JSONTxID_TxID res, None)
  end.

(** [GetTxStatus] *)
Definition GetTxStatus (c : Client R) (txID : ID) : M (Status * option error) :=
  let res := zero TGetTxStatusReply in
  '(res, err) <- call_SendRequest (requester c) "getTxStatus"
                   (OfJSONTxID {| JSONTxID_TxID := txID |})
                   TGetTxStatusReply res ;;
  match err with
  | Some err => ret (Unknown, Some err)
  | None => ret (GetTxStatusReply_Status res, None)
  end.

(** [GetTx]; a nil slice is the empty list. *)
Definition GetTx (c : Client R) (txID : ID) : M (list byte * option error) :=
  let res := zero TFormattedTx in
  '(res, err) <- call_SendRequest (requester c) "getTx"
                   (OfGetTxArgs {| GetTxArgs_TxID := txID;
                                   GetTxArgs_Encoding := HexEncoding |})
                   TFormattedTx res ;;
  match err with
  | Some err => ret ([], Some err)
  | None =>
      let formatter := Hex_zero in
      let '(formatter, err) := FromString formatter (FormattedTx_Tx res) in
      match err with
      | Some err => ret ([], Some err)
      | None => ret (Bytes formatter, None)
      end
  end.

(** The loop of [GetUTXOs] over [res.UTXOs], one formatter for all:
    the decoded UTXOs, or the first error.  [utxos[i] = formatter.Bytes]
    stores the slice the formatter holds; a list stands for the bytes of
    that slice when it is stored, so whether a later [FromString] writes
    into the same backing array is outside this model. *)
Fixpoint GetUTXOs_loop (formatter : Hex) (utxos : list string)
  : list (list byte) * option error :=
  match utxos with
  | [] => ([], None)
  | utxo :: rest =>
      let '(formatter, err) := FromString formatter utxo in
      match err with
      | Some err => ([], Some err)
      | None =>
          let '(decoded, err) := GetUTXOs_loop formatter rest in
          match err with
          | Some err => ([], Some err)
          | None => (Bytes formatter :: decoded, None)
          end
      end
  end.

Definition Index_zero : Index := {| Index_Address := ""; Index_UTXO := "" |}.

(** [GetUTXOs] *)
Definition GetUTXOs (c : Client R) (addrs : list string) (limit : Z)
    (startAddress startUTXOID : string)
  : M (list (list byte) * Index * option error) :=
  let res := zero TGetUTXOsReply in
  '(res, err) <- call_SendRequest (requester c) "getUTXOs"
                   (OfGetUTXOsArgs
                      {| GetUTXOsArgs_Addresses := addrs;
                         GetUTXOsArgs_Limit := limit;
                         GetUTXOsArgs_StartIndex :=
                           {| Index_Address := startAddress; Index_UTXO := startUTXOID |};
                         GetUTXOsArgs_Encoding := HexEncoding |})
                   TGetUTXOsReply res ;;
  match err with
  | Some err => ret ([], Index_zero, Some err)
  | None =>
      let formatter := Hex_zero in
      let '(utxos, err) := GetUTXOs_loop formatter (GetUTXOsReply_UTXOs res) in
      match err with
      | Some err => ret ([], Index_zero, Some err)
      | None => ret (utxos, GetUTXOsReply_EndIndex res, None)
      end
  end.

(** [GetAssetDescription] *)
Definition GetAssetDescription (c : Client R) (assetID : string)
  : M (GetAssetDescriptionReply * option error) :=
  let res := zero TGetAssetDescriptionReply in
  '(res, err) <- call_SendRequest (requester c) "getAssetDescription"
                   (OfGetAssetDescriptionArgs
                      {| GetAssetDescriptionArgs_AssetID := assetID |})
                   TGetAssetDescriptionReply res ;;
  ret (res, err).

(** [GetBalance] *)
Definition GetBalance (c : Client R) (addr assetID : string)
  : M (GetBalanceReply * option error) :=
  let res := zero TGetBalanceReply in
  '(res, err) <- call_SendRequest (requester c) "getBalance"
                   (OfGetBalanceArgs {| GetBalanceArgs_Address := addr;
                                        GetBalanceArgs_AssetID := assetID |})
                   TGetBalanceReply res ;;
  ret (res, err).

(** [GetAllBalances]; [assetID] is not used. *)
Definition GetAllBalances (c : Client R) (addr assetID : string)
  : M (GetAllBalancesReply * option error) :=
  let res := zero TGetAllBalancesReply in
  '(res, err) <- call_SendRequest (requester c) "getAllBalances"
                   (OfJSONAddress {| JSONAddress_Address := addr |})
                   TGetAllBalancesReply res ;;
  ret (res, err).

(** [CreateFixedCapAsset]; [MinterSets] is left nil. *)
Definition CreateFixedCapAsset (c : Client R) (user : UserPass) (name symbol : string)
    (denomination : byte) (holders : list Holder) (from : list string)
    (changeAddr : string) : M (ID * option error) :=
  let res := zero TFormattedAssetID in
  '(res, err) <- call_SendRequest (requester c) "createFixedCapAsset"
                   (OfCreateAssetArgs
                      {| CreateAssetArgs_JSONSpendHeader := spendHeader user from changeAddr;
                         CreateAssetArgs_Name := name;
                         CreateAssetArgs_Symbol := symbol;
                         CreateAssetArgs_Denomination := denomination;
                         CreateAssetArgs_InitialHolders := holders;
                         CreateAssetArgs_MinterSets := [] |})
                   TFormattedAssetID res ;;
  match err with
  | Some err => ret (Empty, Some err)
  | None => ret (FormattedAssetID_AssetID res, None)
  end.

(** [CreateVariableCapAsset]; [InitialHolders] is left nil. *)
Definition CreateVariableCapAsset (c : Client R) (user : UserPass) (name symbol : string)
    (denomination : byte) (minters : list Owners) (from : list string)
    (changeAddr : string) : M (ID * option error) :=
  let res := zero TFormattedAssetID in
  '(res, err) <- call_SendRequest (requester c) "createVariableCapAsset"
                   (OfCreateAssetArgs
                      {| CreateAssetArgs_JSONSpendHeader := spendHeader user from changeAddr;
                         CreateAssetArgs_Name := name;
                         CreateAssetArgs_Symbol := symbol;
                         CreateAssetArgs_Denomination := denomination;
                         CreateAssetArgs_InitialHolders := [];
                         CreateAssetArgs_MinterSets := minters |})
                   TFormattedAssetID res ;;
  match err with
  | Some err => ret (Empty, Some err)
  | None => ret (FormattedAssetID_AssetID res, None)
  end.

(** [CreateNFTAsset] *)
Definition CreateNFTAsset (c : Client R) (user : UserPass) (name symbol : string)
    (minters : list Owners) (from : list string) (changeAddr : string)
  : M (ID * option error) :=
  let res := zero TFormattedAssetID in
  '(res, err) <- call_SendRequest (requester c) "createNFTAsset"
                   (OfCreateNFTAssetArgs
                      {| CreateNFTAssetArgs_JSONSpendHeader := spendHeader user from changeAddr;
                         CreateNFTAssetArgs_Name := name;
                         CreateNFTAssetArgs_Symbol := symbol;
                         CreateNFTAssetArgs_MinterSets := minters |})
                   TFormattedAssetID res ;;
  match err with
  | Some err => ret (Empty, Some err)
  | None => ret (FormattedAssetID_AssetID res, None)
  end.

(** [CreateAddress] *)
Definition CreateAddress (c : Client R) (user : UserPass) : M (string * option error) :=
  let res := zero TJSONAddress in
  '(res, err) <- call_SendRequest (requester c) "createAddress" (OfUserPass user)
                   TJSONAddress res ;;
  match err with
  | Some err => ret ("", Some err)
  | None => ret (JSONAddress_Address res, None)
  end.

(** [ListAddresses] *)
Definition ListAddresses (c : Client R) (user : UserPass)
  : M (list string * option error) :=
  let res := zero TJSONAddresses in
  '(res, err) <- call_SendRequest (requester c) "listAddresses" (OfUserPass user)
                   TJSONAddresses res ;;
  match err with
  | Some err => ret ([], Some err)
  | None => ret (JSONAddresses_Addresses res, None)
  end.

(** [ExportKey] *)
Definition ExportKey (c : Client R) (user : UserPass) (addr : string)
  : M (string * option error) :=
  let res := zero TExportKeyReply in
  '(res, err) <- call_SendRequest (requester c) "exportKey"
                   (OfExportKeyArgs {| ExportKeyArgs_UserPass := user;
                                       ExportKeyArgs_Address := addr |})
                   TExportKeyReply res ;;
  match err with
  | Some err => ret ("", Some err)
  | None => ret (ExportKeyReply_PrivateKey res, None)
  end.

(** [ImportKey] *)
Definition ImportKey (c : Client R) (user : UserPass) (privateKey : string)
  : M (string * option error) :=
  let res := zero TJSONAddress in
  '(res, err) <- call_SendRequest (requester c) "importKey"
                   (OfImportKeyArgs {| ImportKeyArgs_UserPass := user;
                                       ImportKeyArgs_PrivateKey := privateKey |})
                   TJSONAddress res ;;
  match err with
  | Some err => ret ("", Some err)
  | None => ret (JSONAddress_Address res, None)
  end.

(** [Send] *)
Definition Send (c : Client R) (user : UserPass) (amount : Z) (assetID to : string)
    (from : list string) (changeAddr : string) : M (ID * option error) :=
  let res := zero TJSONTxID in
  '(res, err) <- call_SendRequest (requester c) "send"
                   (OfSendArgs
                      {| SendArgs_JSONSpendHeader := spendHeader user from changeAddr;
                         SendArgs_SendOutput :=
                   {| SendOutput_Amount := amount;
                      SendOutput_AssetID := assetID;
                      SendOutput_To := to |} |})
                   TJSONTxID res ;;
  match err with
  | Some err => ret (Empty, Some err)
  | None => ret (JSONTxID_TxID res, None)
  end.

(** [SendMultiple] *)
Definition SendMultiple (c : Client R) (user : UserPass) (outputs : list SendOutput)
    (from : list string) (changeAddr : string) : M (ID * option error) :=
  let res := zero TJSONTxID in
  '(res, err) <- call_SendRequest (requester c) "send"
                   (OfSendMultipleArgs
                      {| SendMultipleArgs_JSONSpendHeader := spendHeader user from changeAddr;
                         SendMultipleArgs_Outputs := outputs |})
                   TJSONTxID res ;;
  match err with
  | Some err => ret (Empty, Some err)
  | None => ret (JSONTxID_TxID res, None)
  end.

(** [Mint] *)
Definition Mint (c : Client R) (user : UserPass) (amount : Z) (assetID to : string)
    (from : list string) (changeAddr : string) : M (ID * option error) :=
  let res := zero TJSONTxID in
  '(res, err) <- call_SendRequest (requester c) "mint"
                   (OfMintArgs
                      {| MintArgs_JSONSpendHeader := spendHeader user from changeAddr;
                         MintArgs_Amount := amount;
                         MintArgs_AssetID := assetID;
                         MintArgs_To := to |})
                   TJSONTxID res ;;
  match err with
  | Some err => ret (Empty, Some err)
  | None => ret (JSONTxID_TxID res, None)
  end.

(** [SendNFT] *)
Definition SendNFT (c : Client R) (user : UserPass) (assetID : string) (groupID : Z)
    (to : string) (from : list string) (changeAddr : string) : M (ID * option error) :=
  let res := zero TJSONTxID in
  '(res, err) <- call_SendRequest (requester c) "sendNFT"
                   (OfSendNFTArgs
                      {| SendNFTArgs_JSONSpendHeader := spendHeader user from changeAddr;
                         SendNFTArgs_AssetID := assetID;
                         SendNFTArgs_GroupID := groupID;
                         SendNFTArgs_To := to |})
                   TJSONTxID res ;;
  match err with
  | Some err => ret (Empty, Some err)
  | None => ret (JSONTxID_TxID res, None)
  end.

(** [MintNFT] *)
Definition MintNFT (c : Client R) (user : UserPass) (assetID : string)
    (payload : list byte) (to : string) (from : list string) (changeAddr : string)
  : M (ID * option error) :=
  let res := zero TJSONTxID in
  '(res, err) <- call_SendRequest (requester c) "mintNFT"
                   (OfMintNFTArgs
                      {| MintNFTArgs_JSONSpendHeader := spendHeader user from changeAddr;
                         MintNFTArgs_AssetID := assetID;
                         MintNFTArgs_Payload := String_ {| Bytes := payload |};
                         MintNFTArgs_Encoding := HexEncoding;
                         MintNFTArgs_To := to |})
                   TJSONTxID res ;;
  match err with
  | Some err => ret (Empty, Some err)
  | None => ret (JSONTxID_TxID res, None)
  end.

(** [ImportAVAX] *)
Definition ImportAVAX (c : Client R) (user : UserPass) (to sourceChain : string)
  : M (ID * option error) :=
  let res := zero TJSONTxID in
  '(res, err) <- call_SendRequest (requester c) "importAVAX"
                   (OfImportArgs {| ImportArgs_UserPass := user;
                            ImportArgs_To := to;
                            ImportArgs_SourceChain := sourceChain |})
                   TJSONTxID res ;;
  match err with
  | Some err => ret (Empty, Some err)
  | None => ret (JSONTxID_TxID res, None)
  end.

(** [ExportAVAX] *)
Definition ExportAVAX (c : Client R) (user : UserPass) (amount : Z) (to : string)
    (from : list string) (changeAddr : string) : M (ID * option error) :=
  let res := zero TJSONTxID in
  '(res, err) <- call_SendRequest (requester c) "exportAVAX"
                   (OfExportAVAXArgs
                      {| ExportAVAXArgs_JSONSpendHeader := spendHeader user from changeAddr;
                         ExportAVAXArgs_Amount := amount;
                         ExportAVAXArgs_To := to |})
                   TJSONTxID res ;;
  match err with
  | Some err => ret (Empty, Some err)
  | None => ret (JSONTxID_TxID res, None)
  end.

(** [Import]: [return res.TxID, err], whatever [err] is. *)
Definition Import (c : Client R) (user : UserPass) (to sourceChain : string)
  : M (ID * option error) :=
  let res := zero TJSONTxID in
  '(res, err) <- call_SendRequest (requester c) "importAVAX"
                   (OfImportArgs {| ImportArgs_UserPass := user;
                                    ImportArgs_To := to;
                                    ImportArgs_SourceChain := sourceChain |})
                   TJSONTxID res ;;
  ret (JSONTxID_TxID res, err).

(** [Export]: [return res.TxID, err], whatever [err] is. *)
Definition Export (c : Client R) (user : UserPass) (amount : Z) (to assetID : string)
    (from : list string) (changeAddr : string) : M (ID * option error) :=
  let res := zero TJSONTxID in
  '(res, err) <- call_SendRequest (requester c) "exportAVAX"
                   (OfExportArgs
                      {| ExportArgs_ExportAVAXArgs :=
                           {| ExportAVAXArgs_JSONSpendHeader := spendHeader user from changeAddr;
                              ExportAVAXArgs_Amount := amount;
                              ExportAVAXArgs_To := to |};
                         ExportArgs_AssetID := assetID |})
                   TJSONTxID res ;;
  ret (JSONTxID_TxID res, err).

End Methods.
(** *** The public methods, as data *)

(** A call of a public method with its arguments. *)
Section Calls.
Context {D : Declarations} {W : Outside} {R : Type} {I : EndpointRequester R}.

Inductive Call : Type :=
| CallIssueTx (txBytes : list byte)
| CallGetTxStatus (txID : ID)
| CallGetTx (txID : ID)
| CallGetUTXOs (addrs : list string) (limit : Z) (startAddress startUTXOID : string)
| CallGetAssetDescription (assetID : string)
| CallGetBalance (addr assetID : string)
| CallGetAllBalances (addr assetID : string)
| CallCreateFixedCapAsset (user : UserPass) (name symbol : string) (denomination : byte)
    (holders : list Holder) (from : list string) (changeAddr : string)
| CallCreateVariableCapAsset (user : UserPass) (name symbol : string) (denomination : byte)
    (minters : list Owners) (from : list string) (changeAddr : string)
| CallCreateNFTAsset (user : UserPass) (name symbol : string) (minters : list Owners)
    (from : list string) (changeAddr : string)
| CallCreateAddress (user : UserPass)
| CallListAddresses (user : UserPass)
| CallExportKey (user : UserPass) (addr : string)
| CallImportKey (user : UserPass) (privateKey : string)
| CallSend (user : UserPass) (amount : Z) (assetID to : string) (from : list string)
    (changeAddr : string)
| CallSendMultiple (user : UserPass) (outputs : list SendOutput) (from : list string)
    (changeAddr : string)
| CallMint (user : UserPass) (amount : Z) (assetID to : string) (from : list string)
    (changeAddr : string)
| CallSendNFT (user : UserPass) (assetID : string) (groupID : Z) (to : string)
    (from : list string) (changeAddr : string)
| CallMintNFT (user : UserPass) (assetID : string) (payload : list byte) (to : string)
    (from : list string) (changeAddr : string)
| CallImportAVAX (user : UserPass) (to sourceChain : string)
| CallExportAVAX (user : UserPass) (amount : Z) (to : string) (from : list string)
    (changeAddr : string)
| CallImport (user : UserPass) (to sourceChain : string)
| CallExport (user : UserPass) (amount : Z) (to assetID : string) (from : list string)
    (changeAddr : string).

(** The Go name of the method called. *)
Definition Call_name (i : Call) : string :=
  match i with
  | CallIssueTx _ => "IssueTx"
  | CallGetTxStatus _ => "GetTxStatus"
  | CallGetTx _ => "GetTx"
  | CallGetUTXOs _ _ _ _ => "GetUTXOs"
  | CallGetAssetDescription _ => "GetAssetDescription"
  | CallGetBalance _ _ => "GetBalance"
  | CallGetAllBalances _ _ => "GetAllBalances"
  | CallCreateFixedCapAsset _ _ _ _ _ _ _ => "CreateFixedCapAsset"
  | CallCreateVariableCapAsset _ _ _ _ _ _ _ => "CreateVariableCapAsset"
  | CallCreateNFTAsset _ _ _ _ _ _ => "CreateNFTAsset"
  | CallCreateAddress _ => "CreateAddress"
  | CallListAddresses _ => "ListAddresses"
  | CallExportKey _ _ => "ExportKey"
  | CallImportKey _ _ => "ImportKey"
  | CallSend _ _ _ _ _ _ => "Send"
  | CallSendMultiple _ _ _ _ => "SendMultiple"
  | CallMint _ _ _ _ _ _ => "Mint"
  | CallSendNFT _ _ _ _ _ _ => "SendNFT"
  | CallMintNFT _ _ _ _ _ _ => "MintNFT"
  | CallImportAVAX _ _ _ => "ImportAVAX"
  | CallExportAVAX _ _ _ _ _ => "ExportAVAX"
  | CallImport _ _ _ => "Import"
  | CallExport _ _ _ _ _ _ => "Export"
  end.

Definition Call_run (c : Client R) (i : Call) (e : Env) : list Event * Env :=
  match i with
  | CallIssueTx txBytes => effects (IssueTx c txBytes) e
  | CallGetTxStatus txID => effects (GetTxStatus c txID) e
  | CallGetTx txID => effects (GetTx c txID) e
  | CallGetUTXOs addrs limit startAddress startUTXOID =>
      effects (GetUTXOs c addrs limit startAddress startUTXOID) e
  | CallGetAssetDescription assetID => effects (GetAssetDescription c assetID) e
  | CallGetBalance addr assetID => effects (GetBalance c addr assetID) e
  | CallGetAllBalances addr assetID => effects (GetAllBalances c addr assetID) e
  | CallCreateFixedCapAsset user name symbol denomination holders from changeAddr =>
      effects (CreateFixedCapAsset c user name symbol denomination holders from changeAddr) e
  | CallCreateVariableCapAsset user name symbol denomination minters from changeAddr =>
      effects (CreateVariableCapAsset c user name symbol denomination minters from changeAddr) e
  | CallCreateNFTAsset user name symbol minters from changeAddr =>
      effects (CreateNFTAsset c user name symbol minters from changeAddr) e
  | CallCreateAddress user => effects (CreateAddress c user) e
  | CallListAddresses user => effects (ListAddresses c user) e
  | CallExportKey user addr => effects (ExportKey c user addr) e
  | CallImportKey user privateKey => effects (ImportKey c user privateKey) e
  | CallSend user amount assetID to from changeAddr =>
      effects (Send c user amount assetID to from changeAddr) e
  | CallSendMultiple user outputs from changeAddr =>
      effects (SendMultiple c user outputs from changeAddr) e
  | CallMint user amount assetID to from changeAddr =>
      effects (Mint c user amount assetID to from changeAddr) e
  | CallSendNFT user assetID groupID to from changeAddr =>
      effects (SendNFT c user assetID groupID to from changeAddr) e
  | CallMintNFT user assetID payload to from changeAddr =>
      effects (MintNFT c user assetID payload to from changeAddr) e
  | CallImportAVAX user to sourceChain => effects (ImportAVAX c user to sourceChain) e
  | CallExportAVAX user amount to from changeAddr =>
      effects (ExportAVAX c user amount to from changeAddr) e
  | CallImport user to sourceChain => effects (Import c user to sourceChain) e
  | CallExport user amount to assetID from changeAddr =>
      effects (Export c user amount to assetID from changeAddr) e
  end.

(** The method name each public method has at its call site, and the
    shape of the reply it allocates. *)
Definition Call_method (i : Call) : string :=
  match i with
  | CallIssueTx _ => "issueTx"
  | CallGetTxStatus _ => "getTxStatus"
  | CallGetTx _ => "getTx"
  | CallGetUTXOs _ _ _ _ => "getUTXOs"
  | CallGetAssetDescription _ => "getAssetDescription"
  | CallGetBalance _ _ => "getBalance"
  | CallGetAllBalances _ _ => "getAllBalances"
  | CallCreateFixedCapAsset _ _ _ _ _ _ _ => "createFixedCapAsset"
  | CallCreateVariableCapAsset _ _ _ _ _ _ _ => "createVariableCapAsset"
  | CallCreateNFTAsset _ _ _ _ _ _ => "createNFTAsset"
  | CallCreateAddress _ => "createAddress"
  | CallListAddresses _ => "listAddresses"
  | CallExportKey _ _ => "exportKey"
  | CallImportKey _ _ => "importKey"
  | CallSend _ _ _ _ _ _ => "send"
  | CallSendMultiple _ _ _ _ => "send"
  | CallMint _ _ _ _ _ _ => "mint"
  | CallSendNFT _ _ _ _ _ _ => "sendNFT"
  | CallMintNFT _ _ _ _ _ _ => "mintNFT"
  | CallImportAVAX _ _ _ => "importAVAX"
  | CallExportAVAX _ _ _ _ _ => "exportAVAX"
  | CallImport _ _ _ => "importAVAX"
  | CallExport _ _ _ _ _ _ => "exportAVAX"
  end.

Definition Call_reply (i : Call) : ReplyTy :=
  match i with
  | CallIssueTx _ => TJSONTxID
  | CallGetTxStatus _ => TGetTxStatusReply
  | CallGetTx _ => TFormattedTx
  | CallGetUTXOs _ _ _ _ => TGetUTXOsReply
  | CallGetAssetDescription _ => TGetAssetDescriptionReply
  | CallGetBalance _ _ => TGetBalanceReply
  | CallGetAllBalances _ _ => TGetAllBalancesReply
  | CallCreateFixedCapAsset _ _ _ _ _ _ _ => TFormattedAssetID
  | CallCreateVariableCapAsset _ _ _ _ _ _ _ => TFormattedAssetID
  | CallCreateNFTAsset _ _ _ _ _ _ => TFormattedAssetID
  | CallCreateAddress _ => TJSONAddress
  | CallListAddresses _ => TJSONAddresses
  | CallExportKey _ _ => TExportKeyReply
  | CallImportKey _ _ => TJSONAddress
  | _ => TJSONTxID
  end.

End Calls.
End avm.

(** ** Method names *)

(** The name with its first letter in lower case: the method name a Go
    method has on the wire when it dispatches under its own name. *)
Definition lower_first (s : string) : string :=
  match s with
  | EmptyString => EmptyString
  | String c rest =>
      let n := N_of_ascii c in
      String (if ((65 <=? n) && (n <=? 90))%N then ascii_of_N (n + 32)%N else c) rest
  end.

(** The public methods of the AVM client that dispatch under the name of
    another method. *)
Definition borrows_name (m : string) : bool :=
  existsb (String.eqb m) ["SendMultiple"; "Import"; "Export"].

(** ** Requesters that keep the reply on error *)

(** The requester leaves the reply as the caller allocated it whenever it
    returns an error. *)
Definition keeps_reply_on_error {D : Declarations} {W : Outside} {R : Type}
    {I : EndpointRequester R} (r : R) : Prop :=
  forall (method : string) (params : Args) (t : ReplyTy) (reply : ReplyOf t) (e : Env),
    snd (fst (SendRequest r method params t reply e)) <> None ->
    fst (fst (SendRequest r method params t reply e)) = reply.

(** The time the events of a computation spend asleep; [time.Sleep]
    returns at once for a negative or zero duration. *)
Fixpoint slept {D : Declarations} (evs : list Event) : Z :=
  match evs with
  | [] => 0
  | EvSleep d :: rest => Z.max 0 d + slept rest
  | EvSendRequest _ _ _ _ _ :: rest => slept rest
  end.

(** ** What the AVM methods return, as data *)

Module avm_results.
Import formatting avm.

Section Results.
Context {D : Declarations} {W : Outside} {R : Type} {I : EndpointRequester R}.

(** The value a public method of the AVM client returns beside the
    error. *)
Inductive Value : Type :=
| AnID (id : ID)
| AStatus (status : Status)
| SomeBytes (b : list byte)
| SomeUTXOs (utxos : list (list byte)) (endIndex : Index)
| AnAssetDescription (reply : GetAssetDescriptionReply)
| ABalance (reply : GetBalanceReply)
| AllBalances (reply : GetAllBalancesReply)
| AString (s : string)
| SomeStrings (l : list string).

(** A method that returns [(a, err)], with [a] seen as a [Value]. *)
Definition returning {A : Type} (v : A -> Value) (m : M (A * option error))
  : M (Value * option error) :=
  fun e => let '((a, err), l, e') := m e in ((v a, err), l, e').

(** The call of a public method, with the value and the error it
    returns. *)
Definition Call_do (c : Client R) (i : Call) : M (Value * option error) :=
  match i with
  | CallIssueTx txBytes => returning AnID (IssueTx c txBytes)
  | CallGetTxStatus txID => returning AStatus (GetTxStatus c txID)
  | CallGetTx txID => returning SomeBytes (GetTx c txID)
  | CallGetUTXOs addrs limit startAddress startUTXOID =>
      fun e =>
        let '((utxos, endIndex, err), l, e') :=
          GetUTXOs c addrs limit startAddress startUTXOID e in
        ((SomeUTXOs utxos endIndex, err), l, e')
  | CallGetAssetDescription assetID =>
      returning AnAssetDescription (GetAssetDescription c assetID)
  | CallGetBalance addr assetID => returning ABalance (GetBalance c addr assetID)
  | CallGetAllBalances addr assetID => returning AllBalances (GetAllBalances c addr assetID)
  | CallCreateFixedCapAsset user name symbol denomination holders from changeAddr =>
      returning AnID
        (CreateFixedCapAsset c user name symbol denomination holders from changeAddr)
  | CallCreateVariableCapAsset user name symbol denomination minters from changeAddr =>
      returning AnID
        (CreateVariableCapAsset c user name symbol denomination minters from changeAddr)
  | CallCreateNFTAsset user name symbol minters from changeAddr =>
      returning AnID (CreateNFTAsset c user name symbol minters from changeAddr)
  | CallCreateAddress user => returning AString (CreateAddress c user)
  | CallListAddresses user => returning SomeStrings (ListAddresses c user)
  | CallExportKey user addr => returning AString (ExportKey c user addr)
  | CallImportKey user privateKey => returning AString (ImportKey c user privateKey)
  | CallSend user amount assetID to from changeAddr =>
      returning AnID (Send c user amount assetID to from changeAddr)
  | CallSendMultiple user outputs from changeAddr =>
      returning AnID (SendMultiple c user outputs from changeAddr)
  | CallMint user amount assetID to from changeAddr =>
      returning AnID (Mint c user amount assetID to from changeAddr)
  | CallSendNFT user assetID groupID to from changeAddr =>
      returning AnID (SendNFT c user assetID groupID to from changeAddr)
  | CallMintNFT user assetID payload to from changeAddr =>
      returning AnID (MintNFT c user assetID payload to from changeAddr)
  | CallImportAVAX user to sourceChain => returning AnID (ImportAVAX c user to sourceChain)
  | CallExportAVAX user amount to from changeAddr =>
      returning AnID (ExportAVAX c user amount to from changeAddr)
  | CallImport user to sourceChain => returning AnID (Import c user to sourceChain)
  | CallExport user amount to assetID from changeAddr =>
      returning AnID (Export c user amount to assetID from changeAddr)
  end.

(** The value a method returns when its request fails, for the methods
    that test [err != nil] before they read the reply; [None] for the five
    that return a field of the reply whatever [err] is. *)
Definition error_value (i : Call) : option Value :=
  match i with
  | CallGetTxStatus _ => Some (AStatus Unknown)
  | CallGetTx _ => Some (SomeBytes [])
  | CallGetUTXOs _ _ _ _ => Some (SomeUTXOs [] Index_zero)
  | CallCreateAddress _ | CallExportKey _ _ | CallImportKey _ _ => Some (AString "")
  | CallListAddresses _ => Some (SomeStrings [])
  | CallGetAssetDescription _ | CallGetBalance _ _ | CallGetAllBalances _ _
  | CallImport _ _ _ | CallExport _ _ _ _ _ _ => None
  | _ => Some (AnID Empty)
  end.

(** Whether the method decodes hex text of the reply after a successful
    request. *)
Definition decodes_reply (i : Call) : bool :=
  match i with
  | CallGetTx _ | CallGetUTXOs _ _ _ _ => true
  | _ => false
  end.

(** The request of a list of events that is a single request: what the
    reply held after it (with its shape) and the error. *)
Definition request_error (evs : list Event) : option (option error) :=
  match evs with
  | [EvSendRequest _ _ _ _ (_, err)] => Some err
  | _ => None
  end.

End Results.

End avm_results.

(** ** Sample declarations and stub endpoints *)

(** Concrete instances of the parameters, for running the clients. *)
Module sample.

Inductive TxStatus : Type := StatusUnknown | Processing | Rejected | Accepted.

Definition xor_byte (a b : byte) : byte :=
  match Byte.of_N (N.lxor (Byte.to_N a) (Byte.to_N b)) with
  | Some c => c
  | None => x00
  end.

(** A four-byte checksum: the exclusive or of the bytes, then three zero
    bytes. *)
Definition xor_checksum (bs : list byte) : list byte :=
  [fold_right xor_byte x00 bs; x00; x00; x00].

#[export] Instance declarations : Declarations := {|
  ID := list byte;
  ID_zero := repeat x00 32;
  Empty := repeat x00 32;
  Status := TxStatus;
  Status_zero := StatusUnknown;
  Unknown := StatusUnknown;
  Encoding := string;
  Encoding_zero := "";
  HexEncoding := "hex";
  UserPass := string * string;
  Holder := Z * string;
  Owners := Z * list string;
  PeerID := string;
  GetAssetDescriptionReply := string;
  GetAssetDescriptionReply_zero := "";
  GetBalanceReply := Z;
  GetBalanceReply_zero := 0;
  GetAllBalancesReply := list (string * Z);
  GetAllBalancesReply_zero := [];
  hexPrefix := "0x";
  checksumLen := 4;
  Checksum := xor_checksum
|}.

(** A node address, a transaction ID and a user. *)
Definition node : string := "http://127.0.0.1:9650".
Definition tx : ID := [x01; x02].
Definition user : UserPass := ("user", "password").

End sample.

Module stubs.
Import sample.

(** The outside of the stubs is the number of requests answered so far;
    the passing of time changes nothing. *)
#[export] Instance counting : Outside := {|
  Env := nat;
  elapse := fun _ n => n
|}.

(** An endpoint that cannot be reached: every request fails with a
    transport error and the reply stays as it was. *)
Inductive Unreachable : Type := unreachable.

#[export] Instance Unreachable_EndpointRequester : EndpointRequester Unreachable := {|
  SendRequest := fun _ _ _ t reply n =>
    ((reply, Some (TransportError "connection refused")), S n)
|}.

(** A node that reports unhealthy up to its liveness request number
    [first_healthy - 1] and healthy from request [first_healthy] on; it
    knows no other method. *)
Record HealthyFrom : Type := { first_healthy : nat }.

Definition HealthyFrom_SendRequest (r : HealthyFrom) (method : string) (params : Args)
    (t : ReplyTy) : ReplyOf t -> nat -> (ReplyOf t * option error) * nat :=
  match t as t' return ReplyOf t' -> nat -> (ReplyOf t' * option error) * nat with
  | TGetLivenessReply => fun reply n =>
      if String.eqb method "getLiveness"
      then (({| GetLivenessReply_Healthy := (first_healthy r <=? S n)%nat |}, None), S n)
      else ((reply, Some (RemoteError (-32601) "method not found")), S n)
  | _ => fun reply n =>
      ((reply, Some (RemoteError (-32601) "method not found")), S n)
  end.

#[export] Instance HealthyFrom_EndpointRequester : EndpointRequester HealthyFrom := {|
  SendRequest := HealthyFrom_SendRequest
|}.

(** A codec and a transport whose server rejects every request with the
    error payload [{code: 7, message: "bad request"}]. *)
#[export] Instance rejecting : rpc.Collaborators := {|
  rpc.Wire := string;
  rpc.encode := fun _ => Some "{}";
  rpc.decode := fun t _ old => Some old;
  rpc.next_id := fun n => (Z.of_nat n, n);
  rpc.transmit := fun _ _ _ n => (rpc.Received (rpc.ErrorPayload 7 "bad request"), S n)
|}.

(** A node that keeps the transaction text of the last [issueTx] and
    hands it back on [getTx]; the outside is that text. *)
Definition keeping : Outside := {|
  Env := string;
  elapse := fun _ s => s
|}.

Inductive Keeper : Type := keeper.

Definition Keeper_SendRequest (r : Keeper) (method : string) (params : Args)
    (t : ReplyTy) : ReplyOf t -> string -> (ReplyOf t * option error) * string :=
  match t as t' return ReplyOf t' -> string -> (ReplyOf t' * option error) * string with
  | TJSONTxID => fun reply kept =>
      match params with
      | OfFormattedTx a => ((reply, None), FormattedTx_Tx a)
      | _ => ((reply, Some (RemoteError (-32602) "invalid params")), kept)
      end
  | TFormattedTx => fun reply kept =>
      (({| FormattedTx_Tx := kept; FormattedTx_Encoding := HexEncoding |}, None), kept)
  | _ => fun reply kept =>
      ((reply, Some (RemoteError (-32601) "method not found")), kept)
  end.

Definition Keeper_EndpointRequester : @EndpointRequester declarations keeping Keeper :=
  @Build_EndpointRequester declarations keeping Keeper Keeper_SendRequest.

End stubs.

(** More stub endpoints. *)
Module stubs_more.
Import sample stubs.

(** A node that fails every request and still writes the reply of the
    calls that expect a transaction ID. *)
Inductive Scribbler : Type := scribbler.

Definition Scribbler_SendRequest (r : Scribbler) (method : string) (params : Args)
    (t : ReplyTy) : ReplyOf t -> nat -> (ReplyOf t * option error) * nat :=
  match t as t' return ReplyOf t' -> nat -> (ReplyOf t' * option error) * nat with
  | TJSONTxID => fun _ n =>
      (({| JSONTxID_TxID := [xff] |}, Some DecodingError), S n)
  | _ => fun reply n => ((reply, Some DecodingError), S n)
  end.

#[export] Instance Scribbler_EndpointRequester : EndpointRequester Scribbler := {|
  SendRequest := Scribbler_SendRequest
|}.

(** A node that is healthy at every request and answers [getUTXOs] with
    two hex texts. *)
Inductive Healthy : Type := healthy_node.

Definition Healthy_SendRequest (r : Healthy) (method : string) (params : Args)
    (t : ReplyTy) : ReplyOf t -> nat -> (ReplyOf t * option error) * nat :=
  match t as t' return ReplyOf t' -> nat -> (ReplyOf t' * option error) * nat with
  | TGetLivenessReply => fun _ n => (({| GetLivenessReply_Healthy := true |}, None), S n)
  | TGetNodeIDReply => fun _ n => (({| GetNodeIDReply_NodeID := "NodeID-7Xhw" |}, None), S n)
  | _ => fun reply n => ((reply, Some (RemoteError (-32601) "method not found")), S n)
  end.

#[export] Instance Healthy_EndpointRequester : EndpointRequester Healthy := {|
  SendRequest := Healthy_SendRequest
|}.

(** A codec whose serialized form is the structured value itself, and a
    node that keeps the transaction text of the last [avm.issueTx] and
    answers every other request with it: what is decoded is what was
    serialized. *)
Definition faithful_decode (t : ReplyTy) (w : Args) : ReplyOf t -> option (ReplyOf t) :=
  match t as t' return ReplyOf t' -> option (ReplyOf t') with
  | TFormattedTx => fun _ =>
      match w with
      | OfFormattedTx v => Some v
      | _ => None
      end
  | _ => fun old => Some old
  end.

Definition faithful_transmit (url : string) (timeout : Duration)
    (request : rpc.RequestEnvelope Args) (kept : string)
  : rpc.Delivery Args * string :=
  if String.eqb (rpc.envelope_method Args request) "avm.issueTx"
  then match rpc.envelope_params Args request with
       | OfFormattedTx a => (rpc.Received (rpc.ResultPayload NoArgs), FormattedTx_Tx a)
       | _ => (rpc.Received (rpc.ErrorPayload (-32602) "invalid params"), kept)
       end
  else (rpc.Received
          (rpc.ResultPayload
             (OfFormattedTx {| FormattedTx_Tx := kept;
                               FormattedTx_Encoding := HexEncoding |})),
        kept).

Definition faithful : @rpc.Collaborators declarations keeping :=
  @rpc.Build_Collaborators declarations keeping Args
    (fun a => Some a) faithful_decode (fun kept => (0, kept)) faithful_transmit.

(** A codec and a transport that lose what they carry: every request is
    answered with an empty result, and decoding leaves the reply as it
    was. *)
Definition lossy : @rpc.Collaborators declarations counting := {|
  rpc.Wire := string;
  rpc.encode := fun _ => Some "{}";
  rpc.decode := fun t _ old => Some old;
  rpc.next_id := fun n => (Z.of_nat n, n);
  rpc.transmit := fun _ _ _ n => (rpc.Received (rpc.ResultPayload "{}"), S n)
|}.

(** Declarations in which an ID is a pointer to 32 bytes: the zero ID is
    the nil pointer and [ids.Empty] points to 32 zero bytes. *)
Definition pointer_ids : Declarations := {|
  ID := option (list byte);
  ID_zero := None;
  Empty := Some (repeat x00 32);
  Status := TxStatus;
  Status_zero := StatusUnknown;
  Unknown := StatusUnknown;
  Encoding := string;
  Encoding_zero := "";
  HexEncoding := "hex";
  UserPass := string * string;
  Holder := Z * string;
  Owners := Z * list string;
  PeerID := string;
  GetAssetDescriptionReply := string;
  GetAssetDescriptionReply_zero := "";
  GetBalanceReply := Z;
  GetBalanceReply_zero := 0;
  GetAllBalancesReply := list (string * Z);
  GetAllBalancesReply_zero := [];
  hexPrefix := "0x";
  checksumLen := 4;
  Checksum := xor_checksum
|}.

(** The endpoint that cannot be reached, under those declarations. *)
Definition Unreachable_pointer_ids : @EndpointRequester pointer_ids counting Unreachable :=
  @Build_EndpointRequester pointer_ids counting Unreachable
    (fun _ _ _ t reply n => ((reply, Some (TransportError "connection refused")), S n)).

(** A user under those declarations. *)
Definition pointer_user : @UserPass pointer_ids := ("user", "password").

End stubs_more.

(** ** Tactics *)

(** Runs the one request of a method: names what the implementation
    answers, then what the method does with it. *)
Ltac run_request :=
  unfold effects, bind, call_SendRequest, ret;
  match goal with
  | |- context [SendRequest ?r ?m ?p ?t ?z ?e] =>
      let res := fresh "res" in
      let err := fresh "err" in
      let e' := fresh "e'" in
      destruct (SendRequest r m p t z e) as [[res [err|]] e']
  end.

(** Runs the request of a call seen through [Call_do]. *)
Ltac run_call :=
  unfold avm_results.Call_do, avm_results.returning, avm.IssueTx, avm.GetTxStatus,
    avm.GetTx, avm.GetUTXOs, avm.GetAssetDescription, avm.GetBalance,
    avm.GetAllBalances, avm.CreateFixedCapAsset, avm.CreateVariableCapAsset,
    avm.CreateNFTAsset, avm.CreateAddress, avm.ListAddresses, avm.ExportKey,
    avm.ImportKey, avm.Send, avm.SendMultiple, avm.Mint, avm.SendNFT, avm.MintNFT,
    avm.ImportAVAX, avm.ExportAVAX, avm.Import, avm.Export;
  run_request;
  try match goal with
      | |- context [formatting.FromString formatting.Hex_zero ?s] =>
          destruct (formatting.FromString formatting.Hex_zero s) as [? [?|]]
      end;
  try match goal with
      | |- context [avm.GetUTXOs_loop formatting.Hex_zero ?l] =>
          destruct (avm.GetUTXOs_loop formatting.Hex_zero l) as [? [?|]]
      end;
  cbn.

(** *** Facts about the hex formatter *)

Module formatting_facts.
Import formatting.

Lemma byte_roundtrip (b : byte) :
  fromHexChar (hexdigit (N.shiftr (Byte.to_N b) 4)) = Some (N.shiftr (Byte.to_N b) 4)
  /\ fromHexChar (hexdigit (N.land (Byte.to_N b) 15)) = Some (N.land (Byte.to_N b) 15)
  /\ byte_of_nibbles (N.shiftr (Byte.to_N b) 4) (N.land (Byte.to_N b) 15) = b.
Proof. destruct b; repeat split; reflexivity. Qed.

Lemma DecodeString_EncodeToString (bs : list byte) :
  DecodeString (EncodeToString bs) = Some bs.
Proof.
  induction bs as [|b bs IH]; [reflexivity|].
  destruct (byte_roundtrip b) as (Hhi & Hlo & Hb).
  cbn [EncodeToString DecodeString].
  rewrite Hhi, Hlo, IH, Hb. reflexivity.
Qed.

Lemma strip_prefix_app (p s : string) : strip_prefix p (p ++ s)%string = Some s.
Proof.
  induction p as [|a p IH]; [reflexivity|].
  cbn. rewrite Ascii.eqb_refl. exact IH.
Qed.

Lemma bytes_eqb_refl (a : list byte) : bytes_eqb a a = true.
Proof. unfold bytes_eqb. destruct (list_eq_dec _ a a); congruence. Qed.

(** Decoding what [String] produced gives the bytes back, whatever the
    receiver held before. *)
Lemma FromString_String {D : Declarations}
    (Hlen : forall b, List.length (Checksum b) = checksumLen)
    (h0 : Hex) (b : list byte) :
  FromString h0 (String_ {| Bytes := b |}) = ({| Bytes := b |}, None).
Proof.
  unfold FromString, String_. cbn [Bytes].
  rewrite strip_prefix_app, DecodeString_EncodeToString.
  rewrite length_app, Hlen.
  replace (List.length b + checksumLen - checksumLen)%nat with (List.length b) by lia.
  destruct (Nat.ltb_spec (List.length b + checksumLen) checksumLen) as [Hlt|_]; [lia|].
  rewrite firstn_app, skipn_app, Nat.sub_diag, firstn_all, skipn_all.
  cbn [firstn skipn]. rewrite app_nil_r. cbn [app].
  rewrite bytes_eqb_refl. reflexivity.
Qed.

End formatting_facts.

(** ** Facts about the health client *)

Module health_facts.
Import health.

Section Facts.
Context {D : Declarations} {W : Outside} {R : Type} {I : EndpointRequester R}.

(** [GetLiveness] is one request, and hands back what the request gave. *)
Lemma GetLiveness_run (c : Client R) (e : Env) :
  exists (o : Outcome) (e' : Env),
    SendRequest (requester c) "getLiveness" NoArgs TGetLivenessReply
      (zero TGetLivenessReply) e = (o, e')
    /\ GetLiveness c e
       = (o, [EvSendRequest "getLiveness" NoArgs TGetLivenessReply
                (zero TGetLivenessReply) o], e').
Proof.
  unfold GetLiveness, bind, call_SendRequest, ret.
  destruct (SendRequest (requester c) "getLiveness" NoArgs TGetLivenessReply
              (zero TGetLivenessReply) e) as [[res err] e'].
  exists (res, err), e'. split; reflexivity.
Qed.

(** Below [max_int] the increment does not wrap. *)
Lemma int_incr_below (i checks : Z) :
  i < checks -> checks <= max_int -> int_incr i = i + 1.
Proof.
  intros Hi Hc. unfold int_incr.
  destruct (Z.gtb_spec (i + 1) max_int); [lia | reflexivity].
Qed.

Lemma Polled_cons_unhealthy (n : nat) (o : Outcome) (os : list Outcome) (healthy : bool) :
  reports_healthy o = false -> Polled n os healthy -> Polled (S n) (o :: os) healthy.
Proof.
  intros Ho Hp. destruct Hp as [os Hlen Hall | before last Hlen Hall Hlast].
  - apply Polled_exhausted; [cbn; lia | constructor; assumption].
  - change (o :: before ++ [last]) with ((o :: before) ++ [last]).
    apply Polled_healthy; [cbn; lia | constructor; assumption | assumption].
Qed.

(** The loop from [i] on, with enough fuel: it ends, its events are whole
    iterations, and the outcomes seen are those of a poll with the budget
    that is left. *)
Lemma AwaitHealthy_loop_run (fuel : nat) (c : Client R) (checks : Z)
    (interval : Duration) :
  checks <= max_int ->
  forall (i : Z) (e : Env),
    (Z.to_nat (checks - i) <= fuel)%nat ->
    exists (healthy : bool) (os : list Outcome) (e' : Env),
      AwaitHealthy_loop fuel c checks interval i e
      = Some ((healthy, None), iterations interval os, e')
      /\ Polled (Z.to_nat (checks - i)) os healthy.
Proof.
  intros Hmax. induction fuel as [|fuel IH]; intros i e Hfuel.
  - cbn. destruct (Z.ltb_spec i checks) as [Hlt|Hge]; [lia|].
    exists false, [], e. split; [reflexivity|].
    apply Polled_exhausted; [cbn; lia | constructor].
  - cbn [AwaitHealthy_loop]. destruct (Z.ltb_spec i checks) as [Hlt|Hge].
    + unfold Sleep.
      destruct (GetLiveness_run c (elapse interval e)) as (o & e2 & _ & Hrun).
      rewrite Hrun. rewrite (@int_incr_below i checks Hlt Hmax).
      destruct (IH (i + 1) e2 ltac:(lia)) as (healthy & os & e' & Hloop & Hpoll).
      replace (Z.to_nat (checks - i)) with (S (Z.to_nat (checks - (i + 1)))) by lia.
      destruct o as [res [err|]].
      * rewrite Hloop. exists healthy, ((res, Some err) :: os), e'.
        split; [reflexivity|]. apply Polled_cons_unhealthy; [reflexivity | assumption].
      * destruct (GetLivenessReply_Healthy res) eqn:Hres.
        -- exists true, [(res, None)], e2. split; [reflexivity|].
           apply (Polled_healthy (S _) [] (res, None)); [cbn; lia | constructor | exact Hres].
        -- rewrite Hloop. exists healthy, ((res, None) :: os), e'.
           split; [reflexivity|]. apply Polled_cons_unhealthy; [exact Hres | assumption].
    + exists false, [], e. split; [reflexivity|].
      apply Polled_exhausted; [cbn; lia | constructor].
Qed.

Lemma Polled_length (n : nat) (os : list Outcome) (healthy : bool) :
  Polled n os healthy -> (List.length os <= n)%nat.
Proof.
  intros [os' Hlen _ | before last Hlen _ _]; [lia|].
  rewrite length_app. cbn. lia.
Qed.

(** The run of [AwaitHealthy] itself. *)
Lemma AwaitHealthy_run (c : Client R) (checks : Z) (interval : Duration) (e : Env) :
  checks <= max_int ->
  exists (healthy : bool) (os : list Outcome) (e' : Env),
    AwaitHealthy c checks interval e
    = Some ((healthy, None), iterations interval os, e')
    /\ Polled (Z.to_nat checks) os healthy.
Proof.
  intros Hmax. unfold AwaitHealthy.
  destruct (AwaitHealthy_loop_run (Z.to_nat checks) c checks interval Hmax 0 e ltac:(lia))
    as (healthy & os & e' & Hrun & Hpoll).
  exists healthy, os, e'. split; [exact Hrun|].
  replace (checks - 0) with checks in Hpoll by lia. exact Hpoll.
Qed.

(** Counting the events of whole iterations. *)
Lemma requests_iterations (interval : Duration) (os : list Outcome) :
  requests (iterations interval os) = List.length os.
Proof.
  unfold requests. induction os as [|o os IH]; [reflexivity|].
  cbn. f_equal. exact IH.
Qed.

Lemma sleeps_iterations (interval : Duration) (os : list Outcome) :
  sleeps (iterations interval os) = List.length os.
Proof.
  unfold sleeps. induction os as [|o os IH]; [reflexivity|].
  cbn. f_equal. exact IH.
Qed.

Lemma dispatched_iterations (interval : Duration) (os : list Outcome) :
  dispatched (iterations interval os) = repeat "getLiveness" (List.length os).
Proof.
  induction os as [|o os IH]; [reflexivity|].
  cbn. f_equal. exact IH.
Qed.

(** The request of an iteration is among its events. *)
Lemma In_iterations (interval : Duration) (o : Outcome) (os : list Outcome) :
  In o os ->
  In (EvSendRequest "getLiveness" NoArgs TGetLivenessReply (zero TGetLivenessReply) o)
     (iterations interval os).
Proof.
  intros Hin. unfold iterations. apply in_flat_map. exists o.
  split; [exact Hin | right; left; reflexivity].
Qed.

(** A request that failed did not report healthy. *)
Lemma failed_not_healthy (o : Outcome) :
  request_failed
    (EvSendRequest "getLiveness" NoArgs TGetLivenessReply (zero TGetLivenessReply) o) = true ->
  reports_healthy o = false.
Proof.
  destruct o as [res [err|]]; cbn; [reflexivity | discriminate].
Qed.

End Facts.
End health_facts.

(** ** Facts about the endpoint requester *)

Module rpc_facts.
Import rpc.

Section Facts.
Context {D : Declarations} {W : Outside} {C : Collaborators}.

(** A call that returns an error leaves the output location as it was. *)
Lemma SendRequest_steps_error (r : Requester) (method : string) (params : Args)
    (t : ReplyTy) (resultOut : Slot (ReplyOf t)) (e : Env) :
  snd (fst (SendRequest_steps r method params t resultOut e)) <> None ->
  fst (fst (SendRequest_steps r method params t resultOut e)) = resultOut.
Proof.
  unfold SendRequest_steps.
  destruct (next_id e) as [id e1].
  destruct (encode params) as [wire|]; [|reflexivity].
  destruct (transmit _ _ _ e1) as [[ | cause | [payload | code message]] e2];
    try reflexivity.
  destruct (decode t payload (content resultOut)) as [v|]; [|reflexivity].
  cbn. congruence.
Qed.

(** A call that returns nil has written the decoded result, once. *)
Lemma SendRequest_steps_success (r : Requester) (method : string) (params : Args)
    (t : ReplyTy) (resultOut : Slot (ReplyOf t)) (e : Env) :
  snd (fst (SendRequest_steps r method params t resultOut e)) = None ->
  exists (payload : Wire) (v : ReplyOf t),
    decode t payload (content resultOut) = Some v
    /\ fst (fst (SendRequest_steps r method params t resultOut e)) = populate v resultOut.
Proof.
  unfold SendRequest_steps.
  destruct (next_id e) as [id e1].
  destruct (encode params) as [wire|]; [|discriminate].
  destruct (transmit _ _ _ e1) as [[ | cause | [payload | code message]] e2];
    try discriminate.
  destruct (decode t payload (content resultOut)) as [v|] eqn:Hdec; [|discriminate].
  intros _. exists payload, v. split; [exact Hdec | reflexivity].
Qed.

(** The same through the interface the clients hold. *)
Lemma SendRequest_error_keeps_reply (r : Requester) (method : string) (params : Args)
    (t : ReplyTy) (reply : ReplyOf t) (e : Env) :
  snd (fst (SendRequest r method params t reply e)) <> None ->
  fst (fst (SendRequest r method params t reply e)) = reply.
Proof.
  cbn.
  pose proof (SendRequest_steps_error r method params t
                {| content := reply; writes := 0 |} e) as H.
  destruct (SendRequest_steps r method params t {| content := reply; writes := 0 |} e)
    as [[slot err] e'].
  cbn in *. intros Herr. rewrite (H Herr). reflexivity.
Qed.

End Facts.
End rpc_facts.

(** ** Facts about the public methods *)

Module info_facts.
Import info.

(** Every public method of the info client is one request, under the
    method name and with the reply shape of the tables; its parameters are
    fixed before the call. *)
Lemma info_Call_run_one_request {D : Declarations} {W : Outside} {R : Type}
    {I : EndpointRequester R} (c : Client R) (i : Call) :
  exists params : Args,
  forall e : Env,
  exists (outcome : ReplyOf (Call_reply i) * option error) (e' : Env),
    Call_run c i e
    = ([EvSendRequest (Call_method i) params (Call_reply i) (zero (Call_reply i)) outcome],
       e').
Proof.
  destruct i; cbn [Call_run Call_method Call_reply]; eexists; intros e;
    unfold GetNodeID, GetNetworkID, GetNetworkName, GetBlockchainID, Peers, IsBootstrapped;
    run_request; do 2 eexists; reflexivity.
Qed.

Lemma info_dispatched_Call_run {D : Declarations} {W : Outside} {R : Type}
    {I : EndpointRequester R} (c : Client R) (i : Call) (e : Env) :
  dispatched (fst (Call_run c i e)) = [Call_method i].
Proof.
  destruct (info_Call_run_one_request c i) as (params & Hone).
  destruct (Hone e) as (outcome & e' & Hrun).
  rewrite Hrun. reflexivity.
Qed.

Lemma info_Call_method_constant (i1 i2 : Call) :
  Call_name i1 = Call_name i2 ->
  Call_method i1 = Call_method i2 /\ Call_reply i1 = Call_reply i2.
Proof.
  destruct i1, i2; cbn; intros Hname; first [split; reflexivity | discriminate Hname].
Qed.

End info_facts.

Module avm_facts.
Import formatting avm.

(** Every public method of the AVM client is one request, under the
    method name and with the reply shape of the tables; its parameters are
    fixed before the call. *)
Lemma avm_Call_run_one_request {D : Declarations} {W : Outside} {R : Type}
    {I : EndpointRequester R} (c : Client R) (i : Call) :
  exists params : Args,
  forall e : Env,
  exists (outcome : ReplyOf (Call_reply i) * option error) (e' : Env),
    Call_run c i e
    = ([EvSendRequest (Call_method i) params (Call_reply i) (zero (Call_reply i)) outcome],
       e').
Proof.
  destruct i; cbn [Call_run Call_method Call_reply]; eexists; intros e;
    unfold IssueTx, GetTxStatus, GetTx, GetUTXOs, GetAssetDescription, GetBalance,
      GetAllBalances, CreateFixedCapAsset, CreateVariableCapAsset, CreateNFTAsset,
      CreateAddress, ListAddresses, ExportKey, ImportKey, Send, SendMultiple, Mint,
      SendNFT, MintNFT, ImportAVAX, ExportAVAX, Import, Export;
    run_request;
    try (destruct (FromString Hex_zero (FormattedTx_Tx res)) as [formatter [err'|]]);
    try (destruct (GetUTXOs_loop Hex_zero (GetUTXOsReply_UTXOs res)) as [utxos [err'|]]);
    do 2 eexists; reflexivity.
Qed.

(** The method name a call dispatches is that of the table. *)
Lemma avm_dispatched_Call_run {D : Declarations} {W : Outside} {R : Type}
    {I : EndpointRequester R} (c : Client R) (i : Call) (e : Env) :
  dispatched (fst (Call_run c i e)) = [Call_method i].
Proof.
  destruct (avm_Call_run_one_request c i) as (params & Hone).
  destruct (Hone e) as (outcome & e' & Hrun).
  rewrite Hrun. reflexivity.
Qed.

(** The method name and the reply shape depend on the method called, not
    on its arguments. *)
Lemma avm_Call_method_constant {D : Declarations} (i1 i2 : Call) :
  Call_name i1 = Call_name i2 ->
  Call_method i1 = Call_method i2 /\ Call_reply i1 = Call_reply i2.
Proof.
  destruct i1, i2; cbn; intros Hname; first [split; reflexivity | discriminate Hname].
Qed.

(** The loop of [GetUTXOs] decodes what [String] produced, element by
    element, whatever the formatter held. *)
Lemma GetUTXOs_loop_round_trip {D : Declarations}
    (Hlen : forall b : list byte, List.length (Checksum b) = checksumLen)
    (bs : list (list byte)) (formatter : Hex) :
  GetUTXOs_loop formatter (map (fun b => String_ {| Bytes := b |}) bs) = (bs, None).
Proof.
  revert formatter. induction bs as [|b bs IH]; intros formatter; [reflexivity|].
  cbn [map GetUTXOs_loop].
  rewrite (formatting_facts.FromString_String Hlen), IH. reflexivity.
Qed.

End avm_facts.

(** ** The polling wrapper (spec, sections 4.2 and 8) *)

Module health_claims.
Import health health_facts.

(** C1.  For [checks >= 1] (an [int], so at most [max_int]) and any
    interval, [AwaitHealthy] returns; and if every liveness request it
    issued failed with an error, it ran exactly [checks] iterations (each a
    sleep and one request), swallowed the errors and returned
    [(false, nil)]. *)
Theorem AwaitHealthy_swallows_errors {D : Declarations} {W : Outside} {R : Type}
    {I : EndpointRequester R} (c : Client R) (checks : Z) (interval : Duration) (e : Env) :
  1 <= checks -> checks <= max_int ->
  exists (r : bool * option error) (evs : list Event) (e' : Env),
    AwaitHealthy c checks interval e = Some (r, evs, e')
    /\ (Forall (fun ev => is_request ev = true -> request_failed ev = true) evs ->
        r = (false, None)
        /\ (exists os : list Outcome,
              evs = iterations interval os /\ Z.of_nat (List.length os) = checks)
        /\ Z.of_nat (requests evs) = checks
        /\ Z.of_nat (sleeps evs) = checks).
Proof.
  intros Hpos Hmax.
  destruct (AwaitHealthy_run c checks interval e Hmax) as (healthy & os & e' & Hrun & Hpoll).
  exists (healthy, None), (iterations interval os), e'. split; [exact Hrun|].
  intros Hfail.
  assert (Hunhealthy : forall o, In o os -> reports_healthy o = false).
  { intros o Hin. apply failed_not_healthy.
    rewrite Forall_forall in Hfail.
    apply (Hfail _ (In_iterations interval o os Hin)). reflexivity. }
  destruct Hpoll as [os Hlen Hall | before last Hlen Hall Hlast].
  - repeat split.
    + exists os. split; [reflexivity | lia].
    + rewrite requests_iterations. lia.
    + rewrite sleeps_iterations. lia.
  - rewrite (Hunhealthy last) in Hlast by (apply in_or_app; right; left; reflexivity).
    discriminate.
Qed.

(** C2.  [AwaitHealthy] runs at most [checks] iterations, each a sleep of
    [interval] followed by one [getLiveness] request, and answers
    [(true, nil)] at the first iteration whose request succeeds and reports
    healthy, [(false, nil)] when none of the [checks] iterations does.  In
    particular, against the node that is unhealthy on requests 1 and 2 and
    healthy on request 3, [AwaitHealthy(3, 10ms)] returns [(true, nil)]
    after exactly three iterations. *)
Theorem AwaitHealthy_stops_at_first_healthy :
  (forall (D : Declarations) (W : Outside) (R : Type) (I : EndpointRequester R)
          (c : Client R) (checks : Z) (interval : Duration) (e : Env),
      checks <= max_int ->
      exists (healthy : bool) (os : list Outcome) (e' : Env),
        AwaitHealthy c checks interval e
        = Some ((healthy, None), iterations interval os, e')
        /\ Polled (Z.to_nat checks) os healthy
        /\ (List.length os <= Z.to_nat checks)%nat
        /\ requests (iterations interval os) = List.length os
        /\ sleeps (iterations interval os) = List.length os)
  /\ AwaitHealthy (I := stubs.HealthyFrom_EndpointRequester)
       {| requester := {| stubs.first_healthy := 3 |} |} 3 (10 * Millisecond) 0%nat
     = Some ((true, None),
             iterations (10 * Millisecond)
               [({| GetLivenessReply_Healthy := false |}, None);
                ({| GetLivenessReply_Healthy := false |}, None);
                ({| GetLivenessReply_Healthy := true |}, None)],
             3%nat).
Proof.
  split; [|reflexivity].
  intros D W R I c checks interval e Hmax.
  destruct (AwaitHealthy_run c checks interval e Hmax) as (healthy & os & e' & Hrun & Hpoll).
  exists healthy, os, e'. repeat split.
  - exact Hrun.
  - exact Hpoll.
  - exact (Polled_length _ _ _ Hpoll).
  - apply requests_iterations.
  - apply sleeps_iterations.
Qed.

(** C9.  For [checks <= 0], [AwaitHealthy] returns [(false, nil)] at once:
    no event at all (no sleep, no request), and the outside untouched. *)
Theorem AwaitHealthy_without_checks {D : Declarations} {W : Outside} {R : Type}
    {I : EndpointRequester R} (c : Client R) (checks : Z) (interval : Duration) (e : Env) :
  checks <= 0 ->
  AwaitHealthy c checks interval e = Some ((false, None), [], e).
Proof.
  intros Hle. unfold AwaitHealthy.
  destruct (Z.to_nat checks); cbn [AwaitHealthy_loop];
    destruct (Z.ltb_spec 0 checks); (lia || reflexivity).
Qed.

End health_claims.

(** ** Runs of the poll on concrete inputs *)

Module health_witnesses.
Import health health_facts health_claims.
Import sample stubs.

(** [AwaitHealthy(3, 10ms)] against the endpoint that cannot be reached:
    three iterations, then [(false, nil)]. *)
Lemma AwaitHealthy_swallows_errors_witness :
  1 <= 3 /\ 3 <= max_int
  /\ exists (evs : list Event) (e' : Env),
       AwaitHealthy (I := stubs.Unreachable_EndpointRequester)
         {| requester := stubs.unreachable |} 3 (10 * Millisecond) 0%nat
       = Some ((false, None), evs, e')
       /\ Forall (fun ev => is_request ev = true -> request_failed ev = true) evs
       /\ Z.of_nat (requests evs) = 3
       /\ Z.of_nat (sleeps evs) = 3.
Proof.
  assert (H1 : 1 <= 3) by lia.
  assert (H2 : 3 <= max_int) by (unfold max_int; lia).
  split; [exact H1|]. split; [exact H2|].
  destruct (AwaitHealthy_swallows_errors (I := stubs.Unreachable_EndpointRequester)
              {| requester := stubs.unreachable |} 3 (10 * Millisecond) 0%nat H1 H2)
    as (r & evs & e' & Hrun & Himp).
  assert (Hfail : Forall (fun ev => is_request ev = true -> request_failed ev = true) evs).
  { vm_compute in Hrun. injection Hrun as _ Hevs _. subst evs.
    repeat (first [apply Forall_nil
                  | apply Forall_cons; [cbn; intros; (reflexivity || discriminate)|]]). }
  destruct (Himp Hfail) as (Hr & _ & Hreq & Hsl). subst r.
  exists evs, e'. repeat split; assumption.
Defined.

(** [AwaitHealthy(5, 10ms)] against the node that is healthy from its
    second request on. *)
Lemma AwaitHealthy_stops_at_first_healthy_witness :
  5 <= max_int
  /\ exists (healthy : bool) (os : list Outcome) (e' : Env),
       AwaitHealthy (I := stubs.HealthyFrom_EndpointRequester)
         {| requester := {| stubs.first_healthy := 2 |} |} 5 (10 * Millisecond) 0%nat
       = Some ((healthy, None), iterations (10 * Millisecond) os, e')
       /\ Polled (Z.to_nat 5) os healthy
       /\ (List.length os <= Z.to_nat 5)%nat
       /\ requests (iterations (10 * Millisecond) os) = List.length os
       /\ sleeps (iterations (10 * Millisecond) os) = List.length os.
Proof.
  assert (H : 5 <= max_int) by (unfold max_int; lia).
  split; [exact H|].
  exact (proj1 AwaitHealthy_stops_at_first_healthy _ _ _
           stubs.HealthyFrom_EndpointRequester
           {| requester := {| stubs.first_healthy := 2 |} |} 5 (10 * Millisecond) 0%nat H).
Defined.

(** [AwaitHealthy(-5, 10ms)] and [AwaitHealthy(0, 10ms)]. *)
Lemma AwaitHealthy_without_checks_witness :
  -5 <= 0
  /\ AwaitHealthy (I := stubs.Unreachable_EndpointRequester)
       {| requester := stubs.unreachable |} (-5) (10 * Millisecond) 7%nat
     = Some ((false, None), [], 7%nat)
  /\ AwaitHealthy (I := stubs.Unreachable_EndpointRequester)
       {| requester := stubs.unreachable |} 0 (10 * Millisecond) 7%nat
     = Some ((false, None), [], 7%nat).
Proof.
  split; [lia|]. split.
  - exact (AwaitHealthy_without_checks (I := Unreachable_EndpointRequester)
             {| requester := unreachable |} (-5) (10 * Millisecond) 7%nat ltac:(lia)).
  - exact (AwaitHealthy_without_checks (I := Unreachable_EndpointRequester)
             {| requester := unreachable |} 0 (10 * Millisecond) 7%nat ltac:(lia)).
Defined.

End health_witnesses.

(** ** The endpoint requester (spec, sections 3, 4.1 and 8) *)

Module rpc_claims.
Import rpc rpc_facts.

(** C3.  A call of [SendRequest] ends in exactly one of two ways: the
    error is nil and the output location has been written, once, with the
    decoded result; or the error is not nil and the output location is as
    it was.  Never an error with a written location, never nil with an
    unwritten one. *)
Theorem SendRequest_one_outcome {D : Declarations} {W : Outside} {C : Collaborators}
    (r : Requester) (method : string) (params : Args) (t : ReplyTy)
    (resultOut : Slot (ReplyOf t)) (e : Env) :
  let slot := fst (fst (SendRequest_steps r method params t resultOut e)) in
  let err := snd (fst (SendRequest_steps r method params t resultOut e)) in
  ((err = None
    /\ writes slot = S (writes resultOut)
    /\ exists payload : Wire, decode t payload (content resultOut) = Some (content slot))
   \/ (err <> None /\ slot = resultOut))
  /\ ~ (err <> None /\ writes slot <> writes resultOut)
  /\ ~ (err = None /\ writes slot = writes resultOut).
Proof.
  cbv zeta.
  destruct (snd (fst (SendRequest_steps r method params t resultOut e))) as [err|] eqn:Herr.
  - assert (Hkeep : fst (fst (SendRequest_steps r method params t resultOut e)) = resultOut)
      by (apply SendRequest_steps_error; rewrite Herr; discriminate).
    rewrite Hkeep. repeat split.
    + right. split; [discriminate | reflexivity].
    + intros [_ Hw]. apply Hw. reflexivity.
    + intros [Hnone _]. discriminate.
  - destruct (SendRequest_steps_success r method params t resultOut e Herr)
      as (payload & v & Hdec & Hpop).
    rewrite Hpop. repeat split.
    + left. repeat split. exists payload. exact Hdec.
    + intros [Hsome _]. apply Hsome. reflexivity.
    + intros [_ Hw]. cbn in Hw. lia.
Qed.

(** C4.  When the server answers with the error payload [{code, message}],
    [SendRequest] returns [RemoteError{code, message}] and the output
    location is untouched; so [GetTxStatus], whose reply is still the zero
    value, returns [choices.Unknown] with that error. *)
Theorem RemoteError_leaves_reply {D : Declarations} {W : Outside} {C : Collaborators} :
  (forall (r : Requester) (method : string) (params : Args) (t : ReplyTy)
          (resultOut : Slot (ReplyOf t)) (e e1 e2 : Env) (id : Z) (wire : Wire)
          (code : Z) (message : string),
      next_id e = (id, e1) ->
      encode params = Some wire ->
      transmit (uri r ++ extension r)%string (timeout r)
        {| envelope_method := (base r ++ "." ++ method)%string;
           envelope_params := wire;
           envelope_id := id |} e1
      = (Received (ErrorPayload code message), e2) ->
      SendRequest_steps r method params t resultOut e
      = ((resultOut, Some (RemoteError code message)), e2))
  /\ (forall (nodeURI chain : string) (requestTimeout : Duration) (txID : ID)
             (e e1 e2 : Env) (id : Z) (wire : Wire) (code : Z) (message : string),
         next_id e = (id, e1) ->
         encode (OfJSONTxID {| JSONTxID_TxID := txID |}) = Some wire ->
         transmit (nodeURI ++ ("/ext/bc/" ++ chain))%string requestTimeout
           {| envelope_method := "avm.getTxStatus";
              envelope_params := wire;
              envelope_id := id |} e1
         = (Received (ErrorPayload code message), e2) ->
         avm.GetTxStatus (avm.NewClient nodeURI chain requestTimeout) txID e
         = ((Unknown, Some (RemoteError code message)),
            [EvSendRequest "getTxStatus" (OfJSONTxID {| JSONTxID_TxID := txID |})
               TGetTxStatusReply (zero TGetTxStatusReply)
               (zero TGetTxStatusReply, Some (RemoteError code message))],
            e2)).
Proof.
  split.
  - intros r method params t resultOut e e1 e2 id wire code message Hid Henc Htr.
    unfold SendRequest_steps. rewrite Hid, Henc, Htr. reflexivity.
  - intros nodeURI chain requestTimeout txID e e1 e2 id wire code message Hid Henc Htr.
    unfold avm.GetTxStatus, bind, call_SendRequest, ret.
    cbn [SendRequest Requester_EndpointRequester avm.requester avm.NewClient].
    unfold SendRequest_steps, NewEndpointRequester.
    cbn [base uri extension timeout]. rewrite Hid, Henc.
    change ("avm" ++ "." ++ "getTxStatus")%string with "avm.getTxStatus".
    rewrite Htr. reflexivity.
Qed.

End rpc_claims.

(** ** The per-service clients (spec, sections 2, 4.1 and 8) *)

Module clients_claims.
Import formatting formatting_facts health_facts info_facts avm_facts.

(** C5.  The code gives two pairs of distinct public methods of the AVM
    client one method name.  [SendMultiple] calls [SendRequest] under
    [send], the name [Send] uses, with a [SendMultipleArgs] where [Send]
    sends a [SendArgs]; [Export] calls it under [exportAVAX], the name
    [ExportAVAX] uses, with an [ExportArgs] where [ExportAVAX] sends an
    [ExportAVAXArgs].  [Import] sends the request of [ImportAVAX], name and
    [ImportArgs] alike.  Every other public method of the AVM client, and
    every one of the info client, dispatches under its own name, first
    letter in lower case, as does the one call site of the health
    client. *)
Theorem SendMultiple_and_Export_borrow_a_method_name :
  (forall (D : Declarations) (W : Outside) (R : Type) (I : EndpointRequester R)
          (c : avm.Client R) (user : UserPass) (amount : Z) (assetID to : string)
          (outputs : list SendOutput) (from : list string) (changeAddr : string)
          (e1 e2 : Env),
      avm.Call_name (avm.CallSend user amount assetID to from changeAddr)
      <> avm.Call_name (avm.CallSendMultiple user outputs from changeAddr)
      /\ (exists outcome : JSONTxID * option error,
             snd (fst (avm.Send c user amount assetID to from changeAddr e1))
             = [EvSendRequest "send"
                  (OfSendArgs
                     {| SendArgs_JSONSpendHeader := avm.spendHeader user from changeAddr;
                        SendArgs_SendOutput :=
                          {| SendOutput_Amount := amount;
                             SendOutput_AssetID := assetID;
                             SendOutput_To := to |} |})
                  TJSONTxID (zero TJSONTxID) outcome])
      /\ (exists outcome : JSONTxID * option error,
             snd (fst (avm.SendMultiple c user outputs from changeAddr e2))
             = [EvSendRequest "send"
                  (OfSendMultipleArgs
                     {| SendMultipleArgs_JSONSpendHeader :=
                          avm.spendHeader user from changeAddr;
                        SendMultipleArgs_Outputs := outputs |})
                  TJSONTxID (zero TJSONTxID) outcome])
      /\ dispatched
           (fst (avm.Call_run c (avm.CallSend user amount assetID to from changeAddr) e1))
         = dispatched
             (fst (avm.Call_run c (avm.CallSendMultiple user outputs from changeAddr) e2)))
  /\ (forall (D : Declarations) (W : Outside) (R : Type) (I : EndpointRequester R)
             (c : avm.Client R) (user : UserPass) (amount : Z) (to assetID : string)
             (from : list string) (changeAddr : string) (e1 e2 : Env),
         avm.Call_name (avm.CallExportAVAX user amount to from changeAddr)
         <> avm.Call_name (avm.CallExport user amount to assetID from changeAddr)
         /\ (exists outcome : JSONTxID * option error,
                snd (fst (avm.ExportAVAX c user amount to from changeAddr e1))
                = [EvSendRequest "exportAVAX"
                     (OfExportAVAXArgs
                        {| ExportAVAXArgs_JSONSpendHeader :=
                             avm.spendHeader user from changeAddr;
                           ExportAVAXArgs_Amount := amount;
                           ExportAVAXArgs_To := to |})
                     TJSONTxID (zero TJSONTxID) outcome])
         /\ (exists outcome : JSONTxID * option error,
                snd (fst (avm.Export c user amount to assetID from changeAddr e2))
                = [EvSendRequest "exportAVAX"
                     (OfExportArgs
                        {| ExportArgs_ExportAVAXArgs :=
                             {| ExportAVAXArgs_JSONSpendHeader :=
                                  avm.spendHeader user from changeAddr;
                                ExportAVAXArgs_Amount := amount;
                                ExportAVAXArgs_To := to |};
                           ExportArgs_AssetID := assetID |})
                     TJSONTxID (zero TJSONTxID) outcome]))
  /\ (forall (D : Declarations) (W : Outside) (R : Type) (I : EndpointRequester R)
             (c : avm.Client R) (user : UserPass) (to sourceChain : string) (e : Env),
         avm.Call_name (avm.CallImportAVAX user to sourceChain)
         <> avm.Call_name (avm.CallImport user to sourceChain)
         /\ exists outcome : JSONTxID * option error,
              snd (fst (avm.ImportAVAX c user to sourceChain e))
              = [EvSendRequest "importAVAX"
                   (OfImportArgs {| ImportArgs_UserPass := user;
                                    ImportArgs_To := to;
                                    ImportArgs_SourceChain := sourceChain |})
                   TJSONTxID (zero TJSONTxID) outcome]
              /\ snd (fst (avm.Import c user to sourceChain e))
                 = snd (fst (avm.ImportAVAX c user to sourceChain e)))
  /\ (forall (D : Declarations) (W : Outside) (R : Type) (I : EndpointRequester R)
             (c : avm.Client R) (i : avm.Call) (e : Env),
         borrows_name (avm.Call_name i) = false ->
         dispatched (fst (avm.Call_run c i e)) = [lower_first (avm.Call_name i)])
  /\ (forall (D : Declarations) (W : Outside) (R : Type) (I : EndpointRequester R)
             (c : info.Client R) (i : info.Call) (e : Env),
         dispatched (fst (info.Call_run c i e)) = [lower_first (info.Call_name i)])
  /\ (forall (D : Declarations) (W : Outside) (R : Type) (I : EndpointRequester R)
             (c : health.Client R) (e : Env),
         dispatched (fst (effects (health.GetLiveness c) e)) = [lower_first "GetLiveness"]).
Proof.
  split; [|split; [|split; [|split; [|split]]]].
  - intros D W R I c user amount assetID to outputs from changeAddr e1 e2.
    split; [cbn; discriminate|].
    split; [unfold avm.Send; run_request; eexists; reflexivity|].
    split; [unfold avm.SendMultiple; run_request; eexists; reflexivity|].
    rewrite !avm_dispatched_Call_run. reflexivity.
  - intros D W R I c user amount to assetID from changeAddr e1 e2.
    split; [cbn; discriminate|].
    split; [unfold avm.ExportAVAX; run_request; eexists; reflexivity|].
    unfold avm.Export; run_request; eexists; reflexivity.
  - intros D W R I c user to sourceChain e.
    split; [cbn; discriminate|].
    unfold avm.Import, avm.ImportAVAX. run_request; eexists; split; reflexivity.
  - intros D W R I c i e Hown.
    rewrite avm_dispatched_Call_run.
    destruct i; cbn in Hown |- *; first [reflexivity | discriminate Hown].
  - intros D W R I c i e.
    rewrite info_dispatched_Call_run. destruct i; reflexivity.
  - intros D W R I c e.
    destruct (GetLiveness_run c e) as (o & e' & _ & Hrun).
    unfold effects. rewrite Hrun. reflexivity.
Qed.

(** C6, as the code has it.  Each client is built around one requester
    with its fixed path and namespace.  Every public method other than
    [AwaitHealthy] issues exactly one [SendRequest], with the method name of
    its call site, arguments built from its inputs and a freshly allocated
    zero reply; the name and the reply shape depend on the method only,
    not on its arguments.  [AwaitHealthy] issues one [getLiveness] request
    per iteration, at most [checks] of them. *)
Theorem clients_hold_one_requester_and_send_one_request :
  (forall (nodeURI : string) (requestTimeout : Duration),
      health.requester (health.NewClient nodeURI requestTimeout)
      = rpc.NewEndpointRequester nodeURI "/ext/health" "health" requestTimeout
      /\ info.requester (info.NewClient nodeURI requestTimeout)
         = rpc.NewEndpointRequester nodeURI "/ext/info" "info" requestTimeout)
  /\ (forall (nodeURI chain : string) (requestTimeout : Duration),
         rpc.uri (avm.requester (avm.NewClient nodeURI chain requestTimeout)) = nodeURI
         /\ rpc.extension (avm.requester (avm.NewClient nodeURI chain requestTimeout))
            = ("/ext/bc/" ++ chain)%string
         /\ rpc.base (avm.requester (avm.NewClient nodeURI chain requestTimeout)) = "avm"
         /\ rpc.timeout (avm.requester (avm.NewClient nodeURI chain requestTimeout))
            = requestTimeout)
  /\ (forall (D : Declarations) (W : Outside) (R : Type) (I : EndpointRequester R)
             (c : health.Client R) (e : Env),
         exists (outcome : GetLivenessReply * option error) (e' : Env),
           effects (health.GetLiveness c) e
           = ([EvSendRequest "getLiveness" NoArgs TGetLivenessReply
                 (zero TGetLivenessReply) outcome], e'))
  /\ (forall (D : Declarations) (W : Outside) (R : Type) (I : EndpointRequester R)
             (c : info.Client R) (i : info.Call),
         exists params : Args,
         forall e : Env,
         exists (outcome : ReplyOf (info.Call_reply i) * option error) (e' : Env),
           info.Call_run c i e
           = ([EvSendRequest (info.Call_method i) params (info.Call_reply i)
                 (zero (info.Call_reply i)) outcome], e'))
  /\ (forall (D : Declarations) (W : Outside) (R : Type) (I : EndpointRequester R)
             (c : avm.Client R) (i : avm.Call),
         exists params : Args,
         forall e : Env,
         exists (outcome : ReplyOf (avm.Call_reply i) * option error) (e' : Env),
           avm.Call_run c i e
           = ([EvSendRequest (avm.Call_method i) params (avm.Call_reply i)
                 (zero (avm.Call_reply i)) outcome], e'))
  /\ (forall (i1 i2 : info.Call),
         info.Call_name i1 = info.Call_name i2 ->
         info.Call_method i1 = info.Call_method i2
         /\ info.Call_reply i1 = info.Call_reply i2)
  /\ (forall (D : Declarations) (i1 i2 : avm.Call),
         avm.Call_name i1 = avm.Call_name i2 ->
         avm.Call_method i1 = avm.Call_method i2
         /\ avm.Call_reply i1 = avm.Call_reply i2)
  /\ (forall (D : Declarations) (W : Outside) (R : Type) (I : EndpointRequester R)
             (c : health.Client R) (checks : Z) (interval : Duration) (e : Env),
         checks <= max_int ->
         exists (r : bool * option error) (os : list health.Outcome) (e' : Env),
           health.AwaitHealthy c checks interval e
           = Some (r, health.iterations interval os, e')
           /\ requests (health.iterations interval os) = List.length os
           /\ (List.length os <= Z.to_nat checks)%nat).
Proof.
  split; [intros; split; reflexivity|].
  split; [intros; repeat split|].
  split.
  { intros D W R I c e.
    destruct (GetLiveness_run c e) as (o & e' & _ & Hrun).
    exists o, e'. unfold effects. rewrite Hrun. reflexivity. }
  split; [intros; apply info_Call_run_one_request|].
  split; [intros; apply avm_Call_run_one_request|].
  split; [exact info_Call_method_constant|].
  split; [intros D; exact avm_Call_method_constant|].
  intros D W R I c checks interval e Hmax.
  destruct (AwaitHealthy_run c checks interval e Hmax) as (healthy & os & e' & Hrun & Hpoll).
  exists (healthy, None), os, e'. split; [exact Hrun|].
  split; [apply requests_iterations | exact (Polled_length _ _ _ Hpoll)].
Qed.



End clients_claims.

(** ** Runs of the clients on concrete inputs *)

Module clients_witnesses.
Import formatting rpc_claims clients_claims.
Import sample stubs stubs_more.

(** [GetTxStatus] on the X chain against the server that rejects every
    request with [{code: 7, message: "bad request"}]. *)
Lemma RemoteError_leaves_reply_witness :
  rpc.SendRequest_steps (C := rejecting) (avm.requester (avm.NewClient node "X" (30000 * Millisecond)))
    "getTxStatus" (OfJSONTxID {| JSONTxID_TxID := tx |}) TGetTxStatusReply
    {| rpc.content := {| GetTxStatusReply_Status := Accepted |}; rpc.writes := 0 |} 0%nat
  = (({| rpc.content := {| GetTxStatusReply_Status := Accepted |}; rpc.writes := 0 |},
      Some (RemoteError 7 "bad request")), 1%nat)
  /\ avm.GetTxStatus (I := rpc.Requester_EndpointRequester (C := rejecting))
         (avm.NewClient node "X" (30000 * Millisecond)) tx 0%nat
     = ((StatusUnknown, Some (RemoteError 7 "bad request")),
        [EvSendRequest "getTxStatus" (OfJSONTxID {| JSONTxID_TxID := tx |})
           TGetTxStatusReply (zero TGetTxStatusReply)
           (zero TGetTxStatusReply, Some (RemoteError 7 "bad request"))],
        1%nat).
Proof.
  destruct (RemoteError_leaves_reply (C := rejecting)) as [Hsend Hstatus].
  split.
  - exact (Hsend (avm.requester (avm.NewClient node "X" (30000 * Millisecond)))
             "getTxStatus" (OfJSONTxID {| JSONTxID_TxID := tx |}) TGetTxStatusReply
             {| rpc.content := {| GetTxStatusReply_Status := Accepted |}; rpc.writes := 0 |}
             0%nat 0%nat 1%nat 0 "{}" 7 "bad request" eq_refl eq_refl eq_refl).
  - exact (Hstatus node "X" (30000 * Millisecond) tx 0%nat 0%nat 1%nat 0 "{}"
             7 "bad request" eq_refl eq_refl eq_refl).
Defined.

(** Against the endpoint that cannot be reached: [IssueTx] dispatches
    under its own name; [Send] and [SendMultiple] dispatch the same name,
    as do [ExportAVAX] and [Export]. *)
Lemma SendMultiple_and_Export_borrow_a_method_name_witness :
  borrows_name (avm.Call_name (avm.CallIssueTx [x2a])) = false
  /\ dispatched (fst (avm.Call_run (I := Unreachable_EndpointRequester)
                        {| avm.requester := unreachable |} (avm.CallIssueTx [x2a]) 0%nat))
     = ["issueTx"]
  /\ dispatched
       (fst (avm.Call_run (I := Unreachable_EndpointRequester)
               {| avm.requester := unreachable |}
               (avm.CallSend user 5 "AVAX" "X-avax1to" ["X-avax1from"] "X-avax1change")
               0%nat))
     = dispatched
         (fst (avm.Call_run (I := Unreachable_EndpointRequester)
                 {| avm.requester := unreachable |}
                 (avm.CallSendMultiple user
                    [{| SendOutput_Amount := 5;
                        SendOutput_AssetID := "AVAX";
                        SendOutput_To := "X-avax1to" |}]
                    ["X-avax1from"] "X-avax1change")
                 1%nat))
  /\ exists outcome : JSONTxID * option error,
       snd (fst (avm.Export (I := Unreachable_EndpointRequester)
                   {| avm.requester := unreachable |}
                   user 5 "P-avax1to" "AVAX" ["X-avax1from"] "X-avax1change" 0%nat))
       = [EvSendRequest "exportAVAX"
          (OfExportArgs
             {| ExportArgs_ExportAVAXArgs :=
                  {| ExportAVAXArgs_JSONSpendHeader :=
                       avm.spendHeader user ["X-avax1from"] "X-avax1change";
                     ExportAVAXArgs_Amount := 5;
                     ExportAVAXArgs_To := "P-avax1to" |};
                ExportArgs_AssetID := "AVAX" |})
          TJSONTxID (zero TJSONTxID) outcome].
Proof.
  destruct SendMultiple_and_Export_borrow_a_method_name
    as (Hsend & Hexport & _ & Hown & _).
  split; [reflexivity|].
  split; [exact (Hown _ _ _ Unreachable_EndpointRequester
                   {| avm.requester := unreachable |} (avm.CallIssueTx [x2a]) 0%nat
                   eq_refl)|].
  split.
  - exact (proj2 (proj2 (proj2
             (Hsend _ _ _ Unreachable_EndpointRequester
                {| avm.requester := unreachable |} user 5 "AVAX" "X-avax1to"
                [{| SendOutput_Amount := 5;
                    SendOutput_AssetID := "AVAX";
                    SendOutput_To := "X-avax1to" |}]
                ["X-avax1from"] "X-avax1change" 0%nat 1%nat)))).
  - exact (proj2 (proj2
             (Hexport _ _ _ Unreachable_EndpointRequester
                {| avm.requester := unreachable |} user 5 "P-avax1to" "AVAX"
                ["X-avax1from"] "X-avax1change" 0%nat 0%nat))).
Defined.

(** [AwaitHealthy] is a public method of the health client that does not
    issue exactly one request: none with [checks = 0], three with
    [checks = 3] against the endpoint that cannot be reached. *)
Lemma AwaitHealthy_not_one_request :
  (exists (r : bool * option error) (evs : list Event) (e' : Env),
      health.AwaitHealthy (I := Unreachable_EndpointRequester)
        {| health.requester := unreachable |} 0 (10 * Millisecond) 0%nat
      = Some (r, evs, e')
      /\ requests evs = 0%nat)
  /\ (exists (r : bool * option error) (evs : list Event) (e' : Env),
         health.AwaitHealthy (I := Unreachable_EndpointRequester)
           {| health.requester := unreachable |} 3 (10 * Millisecond) 0%nat
         = Some (r, evs, e')
         /\ requests evs = 3%nat)
  /\ ~ (forall (checks : Z) (interval : Duration) (e : nat),
           exists (r : bool * option error) (evs : list Event) (e' : Env),
             health.AwaitHealthy (I := Unreachable_EndpointRequester)
               {| health.requester := unreachable |} checks interval e
             = Some (r, evs, e')
             /\ requests evs = 1%nat).
Proof.
  split; [do 3 eexists; split; reflexivity|].
  split; [do 3 eexists; split; reflexivity|].
  intros H. destruct (H 0 (10 * Millisecond) 0%nat) as (r & evs & e' & Hrun & Hone).
  vm_compute in Hrun. injection Hrun as _ Hevs _. subst evs. discriminate Hone.
Qed.

(** The AVM client on the X chain and a poll of five checks. *)
Lemma clients_hold_one_requester_and_send_one_request_witness :
  rpc.extension (avm.requester (avm.NewClient node "X" (30000 * Millisecond))) = "/ext/bc/X"
  /\ 5 <= max_int
  /\ exists (r : bool * option error) (os : list health.Outcome) (e' : Env),
       health.AwaitHealthy (I := HealthyFrom_EndpointRequester)
         {| health.requester := {| first_healthy := 4 |} |} 5 (10 * Millisecond) 0%nat
       = Some (r, health.iterations (10 * Millisecond) os, e')
       /\ requests (health.iterations (10 * Millisecond) os) = List.length os
       /\ (List.length os <= Z.to_nat 5)%nat.
Proof.
  destruct clients_hold_one_requester_and_send_one_request
    as (_ & Havm & _ & _ & _ & _ & _ & Hpoll).
  assert (H : 5 <= max_int) by (unfold max_int; lia).
  split; [exact (proj1 (proj2 (Havm node "X" (30000 * Millisecond))))|].
  split; [exact H|].
  exact (Hpoll _ _ _ HealthyFrom_EndpointRequester
           {| health.requester := {| first_healthy := 4 |} |} 5 (10 * Millisecond) 0%nat H).
Defined.





End clients_witnesses.

(** ** More on the polling wrapper *)

Module health_extras.
Import health health_facts.

Section Poll.
Context {D : Declarations} {W : Outside} {R : Type} {I : EndpointRequester R}.

(** With a budget of at least one check, [AwaitHealthy] is one iteration
    followed by the rest of the loop. *)
Lemma AwaitHealthy_first_iteration (c : Client R) (checks : Z) (interval : Duration)
    (e e1 : Env) (o : Outcome) :
  1 <= checks ->
  SendRequest (requester c) "getLiveness" NoArgs TGetLivenessReply
    (zero TGetLivenessReply) (elapse interval e) = (o, e1) ->
  AwaitHealthy c checks interval e
  = if reports_healthy o
    then Some ((true, None), iteration interval o, e1)
    else after_events (iteration interval o)
           (AwaitHealthy_loop (Z.to_nat checks - 1) c checks interval (int_incr 0) e1).
Proof.
  intros Hpos Hsend. unfold AwaitHealthy.
  destruct (Z.to_nat checks) as [|fuel] eqn:Hfuel; [lia|].
  cbn [AwaitHealthy_loop]. destruct (Z.ltb_spec 0 checks) as [_|Hge]; [|lia].
  unfold Sleep, GetLiveness, bind, call_SendRequest, ret. rewrite Hsend.
  replace (S fuel - 1)%nat with fuel by lia.
  destruct o as [res [err|]]; cbn; [reflexivity|].
  destruct (GetLivenessReply_Healthy res); reflexivity.
Qed.

(** Two loops over the same outside that differ in their budget only: the
    events of the smaller budget open those of the larger one, and a
    healthy answer of the smaller is the answer of the larger. *)
Lemma AwaitHealthy_loop_prefix (c : Client R) (checks checks' : Z) (interval : Duration) :
  checks <= checks' ->
  forall (fuel fuel' : nat) (i : Z) (e e1 e1' : Env) (r r' : bool * option error)
         (evs evs' : list Event),
    AwaitHealthy_loop fuel c checks interval i e = Some (r, evs, e1) ->
    AwaitHealthy_loop fuel' c checks' interval i e = Some (r', evs', e1') ->
    exists rest : list Event,
      evs' = evs ++ rest
      /\ (fst r = true -> rest = [] /\ r' = r /\ e1' = e1).
Proof.
  intros Hle. induction fuel as [|fuel IH]; intros fuel' i e e1 e1' r r' evs evs' Hrun Hrun'.
  - cbn in Hrun. destruct (Z.ltb_spec i checks); [discriminate|].
    injection Hrun as <- <- <-. exists evs'. split; [reflexivity|]. cbn. discriminate.
  - cbn [AwaitHealthy_loop] in Hrun. destruct (Z.ltb_spec i checks) as [Hlt|Hge].
    + destruct fuel' as [|fuel']; cbn [AwaitHealthy_loop] in Hrun';
        destruct (Z.ltb_spec i checks') as [_|Hge']; try lia; [discriminate|].
      destruct (Sleep interval e) as [[u l1] e2].
      destruct (GetLiveness c e2) as [[[res err] l2] e3].
      assert (Hcont :
        forall (rest : option (bool * option error * list Event * Env))
               (rest' : option (bool * option error * list Event * Env)),
          rest = AwaitHealthy_loop fuel c checks interval (int_incr i) e3 ->
          rest' = AwaitHealthy_loop fuel' c checks' interval (int_incr i) e3 ->
          after_events (l1 ++ l2) rest = Some (r, evs, e1) ->
          after_events (l1 ++ l2) rest' = Some (r', evs', e1') ->
          exists tail : list Event,
            evs' = evs ++ tail /\ (fst r = true -> tail = [] /\ r' = r /\ e1' = e1)).
      { intros rest rest' Hrest Hrest' Ha Ha'.
        destruct rest as [[[r0 l0] e0]|]; [|discriminate].
        destruct rest' as [[[r0' l0'] e0']|]; [|discriminate].
        cbn in Ha, Ha'. injection Ha as <- <- <-. injection Ha' as <- <- <-.
        destruct (IH fuel' (int_incr i) e3 e0 e0' r0 r0' l0 l0'
                    (eq_sym Hrest) (eq_sym Hrest')) as (tail & Htail & Htrue).
        exists tail. split; [rewrite Htail, app_assoc; reflexivity | exact Htrue]. }
      destruct err as [err|].
      * exact (Hcont _ _ eq_refl eq_refl Hrun Hrun').
      * destruct (GetLivenessReply_Healthy res).
        -- injection Hrun as <- <- <-. injection Hrun' as <- <- <-.
           exists []. split; [rewrite app_nil_r; reflexivity|]. intros _. repeat split.
        -- exact (Hcont _ _ eq_refl eq_refl Hrun Hrun').
    + injection Hrun as <- <- <-. exists evs'. split; [reflexivity|]. cbn. discriminate.
Qed.

(** X1.  With a budget of at least one check, [AwaitHealthy] sleeps one
    interval before anything else, then sends its first request to the
    outside as that sleep left it: it never asks before it has slept, not
    even a node that is healthy from the start. *)
Theorem AwaitHealthy_sleeps_before_it_asks (c : Client R) (checks : Z)
    (interval : Duration) (e : Env) :
  1 <= checks -> checks <= max_int ->
  exists (healthy : bool) (o : Outcome) (os : list Outcome) (e' : Env),
    AwaitHealthy c checks interval e
    = Some ((healthy, None),
            EvSleep interval
              :: EvSendRequest "getLiveness" NoArgs TGetLivenessReply
                   (zero TGetLivenessReply) o
              :: iterations interval os,
            e')
    /\ fst (SendRequest (requester c) "getLiveness" NoArgs TGetLivenessReply
              (zero TGetLivenessReply) (elapse interval e)) = o.
Proof.
  intros Hpos Hmax.
  destruct (SendRequest (requester c) "getLiveness" NoArgs TGetLivenessReply
              (zero TGetLivenessReply) (elapse interval e)) as [o e1] eqn:Hsend.
  rewrite (AwaitHealthy_first_iteration c checks interval e e1 o Hpos Hsend).
  destruct (reports_healthy o).
  - exists true, o, [], e1. split; reflexivity.
  - rewrite (int_incr_below 0 checks ltac:(lia) Hmax).
    destruct (AwaitHealthy_loop_run (Z.to_nat checks - 1) c checks interval Hmax
                (0 + 1) e1 ltac:(lia)) as (healthy & os & e' & Hloop & _).
    rewrite Hloop. exists healthy, o, os, e'. split; reflexivity.
Qed.

(** X2.  If the first liveness request succeeds and reports healthy,
    [AwaitHealthy] returns [(true, nil)] after that single iteration,
    whatever the budget of at least one check: the rest of the budget is
    not used. *)
Theorem AwaitHealthy_healthy_at_once (c : Client R) (checks : Z)
    (interval : Duration) (e e1 : Env) (res : GetLivenessReply) :
  1 <= checks ->
  SendRequest (requester c) "getLiveness" NoArgs TGetLivenessReply
    (zero TGetLivenessReply) (elapse interval e) = ((res, None), e1) ->
  GetLivenessReply_Healthy res = true ->
  AwaitHealthy c checks interval e
  = Some ((true, None), iteration interval (res, None), e1).
Proof.
  intros Hpos Hsend Hres.
  rewrite (AwaitHealthy_first_iteration c checks interval e e1 (res, None) Hpos Hsend).
  unfold reports_healthy. cbn. rewrite Hres. reflexivity.
Qed.

(** X3.  Raising the budget keeps what the poll did: from the same
    outside, the events of [AwaitHealthy] with the smaller budget open the
    events with the larger one; and when the smaller budget answered
    healthy, the larger one gives the same answer, the same events and the
    same outside. *)
Theorem AwaitHealthy_larger_budget (c : Client R) (checks checks' : Z)
    (interval : Duration) (e : Env) :
  checks <= checks' -> checks' <= max_int ->
  exists (healthy healthy' : bool) (evs rest : list Event) (e1 e1' : Env),
    AwaitHealthy c checks interval e = Some ((healthy, None), evs, e1)
    /\ AwaitHealthy c checks' interval e = Some ((healthy', None), evs ++ rest, e1')
    /\ (healthy = true -> healthy' = true /\ rest = [] /\ e1' = e1).
Proof.
  intros Hle Hmax.
  destruct (AwaitHealthy_run c checks interval e ltac:(lia))
    as (healthy & os & e1 & Hrun & _).
  destruct (AwaitHealthy_run c checks' interval e Hmax)
    as (healthy' & os' & e1' & Hrun' & _).
  destruct (AwaitHealthy_loop_prefix c checks checks' interval Hle _ _ _ _ _ _ _ _ _ _
              Hrun Hrun') as (rest & Hevs & Htrue).
  exists healthy, healthy', (iterations interval os), rest, e1, e1'.
  split; [exact Hrun|]. split; [rewrite Hrun', Hevs; reflexivity|].
  intros Hh. subst healthy. destruct (Htrue eq_refl) as (Hrest & Hr & He).
  injection Hr as ->. repeat split; assumption.
Qed.

Lemma slept_iterations (interval : Duration) (os : list Outcome) :
  slept (iterations interval os) = Z.max 0 interval * Z.of_nat (List.length os).
Proof.
  induction os as [|o os IH]; [cbn; lia|].
  cbn [iterations flat_map iteration app slept List.length].
  change (flat_map (iteration interval) os) with (iterations interval os).
  rewrite IH. lia.
Qed.

(** X12.  The time [AwaitHealthy] spends asleep is one interval for each
    request it sends, so at most [checks] intervals; the requests aside
    it never blocks longer than [checks * interval]. *)
Theorem AwaitHealthy_sleeps_at_most_the_budget (c : Client R) (checks : Z)
    (interval : Duration) (e : Env) :
  checks <= max_int ->
  exists (r : bool * option error) (evs : list Event) (e' : Env),
    AwaitHealthy c checks interval e = Some (r, evs, e')
    /\ slept evs = Z.max 0 interval * Z.of_nat (requests evs)
    /\ slept evs <= Z.max 0 interval * Z.max 0 checks.
Proof.
  intros Hmax.
  destruct (AwaitHealthy_run c checks interval e Hmax) as (healthy & os & e' & Hrun & Hpoll).
  exists (healthy, None), (iterations interval os), e'. split; [exact Hrun|].
  rewrite slept_iterations, requests_iterations. split; [reflexivity|].
  pose proof (Polled_length _ _ _ Hpoll) as Hlen.
  apply Z.mul_le_mono_nonneg_l; lia.
Qed.

End Poll.
End health_extras.

Module health_extras_runs.
Import health health_facts health_extras.
Import sample stubs stubs_more.

(** A poll of two checks against the endpoint that cannot be reached. *)
Lemma AwaitHealthy_sleeps_before_it_asks_witness :
  1 <= 2 /\ 2 <= max_int
  /\ exists (healthy : bool) (o : Outcome) (os : list Outcome) (e' : Env),
       AwaitHealthy (I := Unreachable_EndpointRequester)
         {| requester := unreachable |} 2 (10 * Millisecond) 0%nat
       = Some ((healthy, None),
               EvSleep (10 * Millisecond)
                 :: EvSendRequest "getLiveness" NoArgs TGetLivenessReply
                      (zero TGetLivenessReply) o
                 :: iterations (10 * Millisecond) os,
               e')
       /\ fst (SendRequest unreachable "getLiveness" NoArgs TGetLivenessReply
                 (zero TGetLivenessReply) (elapse (10 * Millisecond) 0%nat)) = o.
Proof.
  assert (H1 : 1 <= 2) by lia.
  assert (H2 : 2 <= max_int) by (unfold max_int; lia).
  split; [exact H1|]. split; [exact H2|].
  exact (AwaitHealthy_sleeps_before_it_asks (I := Unreachable_EndpointRequester)
           {| requester := unreachable |} 2 (10 * Millisecond) 0%nat H1 H2).
Defined.

(** A poll of a thousand checks against the node that is always healthy:
    one sleep, one request. *)
Lemma AwaitHealthy_healthy_at_once_witness :
  1 <= 1000
  /\ AwaitHealthy (I := Healthy_EndpointRequester)
       {| requester := healthy_node |} 1000 (10 * Millisecond) 0%nat
     = Some ((true, None),
             iteration (10 * Millisecond) ({| GetLivenessReply_Healthy := true |}, None),
             1%nat).
Proof.
  assert (H1 : 1 <= 1000) by lia.
  split; [exact H1|].
  exact (AwaitHealthy_healthy_at_once (I := Healthy_EndpointRequester)
           {| requester := healthy_node |} 1000 (10 * Millisecond) 0%nat 1%nat
           {| GetLivenessReply_Healthy := true |} H1 eq_refl eq_refl).
Defined.

(** Budgets of three and five checks against the node that is healthy
    from its second request on. *)
Lemma AwaitHealthy_larger_budget_witness :
  3 <= 5 /\ 5 <= max_int
  /\ exists (healthy healthy' : bool) (evs rest : list Event) (e1 e1' : Env),
       AwaitHealthy (I := HealthyFrom_EndpointRequester)
         {| requester := {| first_healthy := 2 |} |} 3 (10 * Millisecond) 0%nat
       = Some ((healthy, None), evs, e1)
       /\ AwaitHealthy (I := HealthyFrom_EndpointRequester)
            {| requester := {| first_healthy := 2 |} |} 5 (10 * Millisecond) 0%nat
          = Some ((healthy', None), evs ++ rest, e1')
       /\ (healthy = true -> healthy' = true /\ rest = [] /\ e1' = e1).
Proof.
  assert (H1 : 3 <= 5) by lia.
  assert (H2 : 5 <= max_int) by (unfold max_int; lia).
  split; [exact H1|]. split; [exact H2|].
  exact (AwaitHealthy_larger_budget (I := HealthyFrom_EndpointRequester)
           {| requester := {| first_healthy := 2 |} |} 3 5 (10 * Millisecond) 0%nat H1 H2).
Defined.

(** A poll of three checks of ten milliseconds against the endpoint that
    cannot be reached. *)
Lemma AwaitHealthy_sleeps_at_most_the_budget_witness :
  3 <= max_int
  /\ exists (r : bool * option error) (evs : list Event) (e' : Env),
       AwaitHealthy (I := Unreachable_EndpointRequester)
         {| requester := unreachable |} 3 (10 * Millisecond) 0%nat
       = Some (r, evs, e')
       /\ slept evs = Z.max 0 (10 * Millisecond) * Z.of_nat (requests evs)
       /\ slept evs <= Z.max 0 (10 * Millisecond) * Z.max 0 3.
Proof.
  assert (H : 3 <= max_int) by (unfold max_int; lia).
  split; [exact H|].
  exact (AwaitHealthy_sleeps_at_most_the_budget (I := Unreachable_EndpointRequester)
           {| requester := unreachable |} 3 (10 * Millisecond) 0%nat H).
Defined.

End health_extras_runs.

(** ** More on the info client *)

Module info_extras.
Import info.

(** X4.  Against a requester that keeps the reply on error, the methods of
    the info client and [GetLiveness], which hand back a field of the reply
    without testing the error, return the zero value of their result
    whenever they return an error: an empty string, network 0, no peers,
    not bootstrapped, not healthy. *)
Theorem info_methods_return_zero_with_an_error {D : Declarations} {W : Outside}
    {R : Type} {I : EndpointRequester R} (c : Client R) (h : health.Client R) :
  keeps_reply_on_error (requester c) ->
  keeps_reply_on_error (health.requester h) ->
  forall e : Env,
    (snd (fst (fst (GetNodeID c e))) <> None -> fst (fst (fst (GetNodeID c e))) = "")
    /\ (snd (fst (fst (GetNetworkID c e))) <> None -> fst (fst (fst (GetNetworkID c e))) = 0)
    /\ (snd (fst (fst (GetNetworkName c e))) <> None
        -> fst (fst (fst (GetNetworkName c e))) = "")
    /\ (snd (fst (fst (GetBlockchainID c e))) <> None
        -> fst (fst (fst (GetBlockchainID c e))) = "")
    /\ (snd (fst (fst (Peers c e))) <> None -> fst (fst (fst (Peers c e))) = [])
    /\ (forall chain : string,
           snd (fst (fst (IsBootstrapped c chain e))) <> None
           -> fst (fst (fst (IsBootstrapped c chain e))) = false)
    /\ (snd (fst (fst (health.GetLiveness h e))) <> None
        -> GetLivenessReply_Healthy (fst (fst (fst (health.GetLiveness h e)))) = false).
Proof.
  intros Hkeep Hkeeph e.
  repeat match goal with |- _ /\ _ => split end;
    try match goal with |- forall _ : string, _ => intros chain end;
    unfold GetNodeID, GetNetworkID, GetNetworkName, GetBlockchainID, Peers,
      IsBootstrapped, health.GetLiveness, bind, call_SendRequest, ret;
    match goal with
    | |- context [SendRequest ?r ?m ?p ?t ?z ?e0] =>
        pose proof (Hkeep m p t z e0) as Hk;
        pose proof (Hkeeph m p t z e0) as Hk';
        destruct (SendRequest r m p t z e0) as [[res err] e']
    end;
    cbn in *; intros Herr; first [rewrite (Hk Herr) | rewrite (Hk' Herr)]; reflexivity.
Qed.

(** X13.  The methods of the info client and [GetLiveness] send one
    request and return its error as it is: they never swallow an error and
    never add one. *)
Theorem info_request_errors_surface {D : Declarations} {W : Outside} {R : Type}
    {I : EndpointRequester R} (c : Client R) (h : health.Client R) (e : Env) :
  avm_results.request_error (snd (fst (GetNodeID c e)))
  = Some (snd (fst (fst (GetNodeID c e))))
  /\ avm_results.request_error (snd (fst (GetNetworkID c e)))
     = Some (snd (fst (fst (GetNetworkID c e))))
  /\ avm_results.request_error (snd (fst (GetNetworkName c e)))
     = Some (snd (fst (fst (GetNetworkName c e))))
  /\ avm_results.request_error (snd (fst (GetBlockchainID c e)))
     = Some (snd (fst (fst (GetBlockchainID c e))))
  /\ avm_results.request_error (snd (fst (Peers c e)))
     = Some (snd (fst (fst (Peers c e))))
  /\ (forall chain : string,
         avm_results.request_error (snd (fst (IsBootstrapped c chain e)))
         = Some (snd (fst (fst (IsBootstrapped c chain e)))))
  /\ avm_results.request_error (snd (fst (health.GetLiveness h e)))
     = Some (snd (fst (fst (health.GetLiveness h e)))).
Proof.
  repeat match goal with |- _ /\ _ => split end;
    try match goal with |- forall _ : string, _ => intros chain end;
    unfold GetNodeID, GetNetworkID, GetNetworkName, GetBlockchainID, Peers,
      IsBootstrapped, health.GetLiveness;
    run_request; reflexivity.
Qed.

End info_extras.

(** ** More on the AVM client *)

Module avm_extras.
Import formatting avm avm_results.

Section Results.
Context {D : Declarations} {W : Outside} {R : Type} {I : EndpointRequester R}.

(** X5.  Every public method of the AVM client returns the error of its
    request unchanged when the request fails, and returns nil only when
    the request succeeded; a successful request is followed by an error
    only in [GetTx] and [GetUTXOs], which decode the reply. *)
Theorem avm_request_errors_surface (c : Client R) (i : Call) (e : Env) :
  exists rerr : option error,
    request_error (snd (fst (Call_do c i e))) = Some rerr
    /\ (rerr <> None -> snd (fst (fst (Call_do c i e))) = rerr)
    /\ (snd (fst (fst (Call_do c i e))) = None -> rerr = None)
    /\ (decodes_reply i = false -> snd (fst (fst (Call_do c i e))) = rerr).
Proof.
  destruct i; run_call; eexists; (split; [reflexivity|]);
    repeat split; intros; congruence.
Qed.

(** X6.  A method that tests the error before it reads the reply never
    returns data with an error: whenever it returns an error (of the
    request or of the decoding), its value is the fixed one of its error
    path, [ids.Empty], [choices.Unknown], nil or the empty string, whatever
    the requester wrote into the reply. *)
Theorem avm_guarded_methods_return_nothing_with_an_error (c : Client R) (i : Call)
    (v : Value) (e : Env) :
  error_value i = Some v ->
  snd (fst (fst (Call_do c i e))) <> None ->
  fst (fst (fst (Call_do c i e))) = v.
Proof.
  destruct i; cbn [error_value]; intros Hv; try discriminate Hv;
    injection Hv as <-; run_call; intros Herr;
    first [reflexivity | exfalso; apply Herr; reflexivity].
Qed.

(** X7.  The five methods that return a field of the reply without testing
    the error ([GetAssetDescription], [GetBalance], [GetAllBalances],
    [Import], [Export]) return, against a requester that keeps the reply on
    error, the zero value of that field whenever they return an error. *)
Theorem avm_unguarded_methods_return_zero_with_an_error (c : Client R) :
  keeps_reply_on_error (requester c) ->
  forall e : Env,
    (forall assetID : string,
        snd (fst (fst (GetAssetDescription c assetID e))) <> None ->
        fst (fst (fst (GetAssetDescription c assetID e))) = GetAssetDescriptionReply_zero)
    /\ (forall addr assetID : string,
           snd (fst (fst (GetBalance c addr assetID e))) <> None ->
           fst (fst (fst (GetBalance c addr assetID e))) = GetBalanceReply_zero)
    /\ (forall addr assetID : string,
           snd (fst (fst (GetAllBalances c addr assetID e))) <> None ->
           fst (fst (fst (GetAllBalances c addr assetID e))) = GetAllBalancesReply_zero)
    /\ (forall (user : UserPass) (to sourceChain : string),
           snd (fst (fst (Import c user to sourceChain e))) <> None ->
           fst (fst (fst (Import c user to sourceChain e))) = ID_zero)
    /\ (forall (user : UserPass) (amount : Z) (to assetID : string) (from : list string)
               (changeAddr : string),
           snd (fst (fst (Export c user amount to assetID from changeAddr e))) <> None ->
           fst (fst (fst (Export c user amount to assetID from changeAddr e))) = ID_zero).
Proof.
  intros Hkeep e.
  repeat match goal with |- _ /\ _ => split end;
    repeat match goal with
           | |- forall _ : string, _ => intro
           | |- forall _ : UserPass, _ => intro
           | |- forall _ : Z, _ => intro
           | |- forall _ : list string, _ => intro
           end;
    unfold GetAssetDescription, GetBalance, GetAllBalances, Import, Export,
      bind, call_SendRequest, ret;
    match goal with
    | |- context [SendRequest ?r ?m ?p ?t ?z ?e0] =>
        pose proof (Hkeep m p t z e0) as Hk;
        destruct (SendRequest r m p t z e0) as [[res err] e']
    end;
    cbn in *; intros Herr; rewrite (Hk Herr); reflexivity.
Qed.

(** X8.  [Import] and [ImportAVAX] do the same thing on an input exactly
    when the request succeeds or the transaction ID the reply holds after
    the failed request is [ids.Empty]: [Import] hands back what the
    requester left in the reply, [ImportAVAX] does not. *)
Theorem Import_agrees_with_ImportAVAX_iff (c : Client R) (user : UserPass)
    (to sourceChain : string) (e : Env) :
  Import c user to sourceChain e = ImportAVAX c user to sourceChain e
  <-> (snd (fst (SendRequest (requester c) "importAVAX"
                   (OfImportArgs {| ImportArgs_UserPass := user;
                                    ImportArgs_To := to;
                                    ImportArgs_SourceChain := sourceChain |})
                   TJSONTxID (zero TJSONTxID) e)) = None
       \/ JSONTxID_TxID
            (fst (fst (SendRequest (requester c) "importAVAX"
                         (OfImportArgs {| ImportArgs_UserPass := user;
                                          ImportArgs_To := to;
                                          ImportArgs_SourceChain := sourceChain |})
                         TJSONTxID (zero TJSONTxID) e))) = Empty).
Proof.
  unfold Import, ImportAVAX, bind, call_SendRequest, ret.
  destruct (SendRequest (requester c) "importAVAX" _ TJSONTxID (zero TJSONTxID) e)
    as [[res [err|]] e']; cbn.
  - split.
    + intros Heq. right. congruence.
    + intros [Hnone | Hempty]; [discriminate | rewrite Hempty; reflexivity].
  - split; [left; reflexivity | reflexivity].
Qed.

(** The loop of [GetUTXOs] gives one byte slice per text, or nothing. *)
Lemma GetUTXOs_loop_all_or_nothing (texts : list string) (formatter : Hex) :
  match snd (GetUTXOs_loop formatter texts) with
  | None => List.length (fst (GetUTXOs_loop formatter texts)) = List.length texts
  | Some _ => fst (GetUTXOs_loop formatter texts) = []
  end.
Proof.
  revert formatter. induction texts as [|text texts IH]; intros formatter; [reflexivity|].
  cbn [GetUTXOs_loop].
  destruct (FromString formatter text) as [formatter' [err|]]; [reflexivity|].
  specialize (IH formatter').
  destruct (GetUTXOs_loop formatter' texts) as [decoded [err|]]; cbn in *;
    [reflexivity | f_equal; exact IH].
Qed.

(** X9.  [GetUTXOs] is all or nothing.  With a nil error it returns one
    byte slice for each UTXO text of the reply and the end index of the
    reply; with an error, of the request or of the decoding of any one
    text, it returns no UTXO at all and the zero index. *)
Theorem GetUTXOs_all_or_nothing (c : Client R) (addrs : list string) (limit : Z)
    (startAddress startUTXOID : string) (e : Env) :
  let res :=
    fst (fst (SendRequest (requester c) "getUTXOs"
                (OfGetUTXOsArgs
                   {| GetUTXOsArgs_Addresses := addrs;
                      GetUTXOsArgs_Limit := limit;
                      GetUTXOsArgs_StartIndex :=
                        {| Index_Address := startAddress; Index_UTXO := startUTXOID |};
                      GetUTXOsArgs_Encoding := HexEncoding |})
                TGetUTXOsReply (zero TGetUTXOsReply) e)) in
  let out := fst (fst (GetUTXOs c addrs limit startAddress startUTXOID e)) in
  match snd out with
  | None =>
      List.length (fst (fst out)) = List.length (GetUTXOsReply_UTXOs res)
      /\ snd (fst out) = GetUTXOsReply_EndIndex res
  | Some _ => fst out = ([], Index_zero)
  end.
Proof.
  cbv zeta. unfold GetUTXOs, bind, call_SendRequest, ret.
  destruct (SendRequest (requester c) "getUTXOs" _ TGetUTXOsReply (zero TGetUTXOsReply) e)
    as [[res [err|]] e']; cbn; [reflexivity|].
  pose proof (GetUTXOs_loop_all_or_nothing (GetUTXOsReply_UTXOs res) Hex_zero) as Hloop.
  destruct (GetUTXOs_loop Hex_zero (GetUTXOsReply_UTXOs res)) as [utxos [err|]]; cbn in *;
    [reflexivity | split; [exact Hloop | reflexivity]].
Qed.

(** X10.  [GetAllBalances] takes an asset ID and does not use it: the
    request carries the address only, and two calls that differ in the
    asset ID alone do the same thing. *)
Theorem GetAllBalances_ignores_the_asset (c : Client R) (addr assetID assetID' : string)
    (e : Env) :
  GetAllBalances c addr assetID e = GetAllBalances c addr assetID' e
  /\ exists outcome : GetAllBalancesReply * option error,
       snd (fst (GetAllBalances c addr assetID e))
       = [EvSendRequest "getAllBalances" (OfJSONAddress {| JSONAddress_Address := addr |})
            TGetAllBalancesReply (zero TGetAllBalancesReply) outcome].
Proof.
  split; [reflexivity|].
  unfold GetAllBalances. run_request; eexists; reflexivity.
Qed.

End Results.

End avm_extras.

Module clients_extras_runs.
Import formatting avm_results info_extras avm_extras.
Import sample stubs stubs_more.

(** The info client and the health client over the server that rejects
    every request. *)
Lemma info_methods_return_zero_with_an_error_witness :
  keeps_reply_on_error (I := rpc.Requester_EndpointRequester (C := rejecting))
    (info.requester (info.NewClient node (30000 * Millisecond)))
  /\ snd (fst (fst (info.GetNodeID
                      (I := rpc.Requester_EndpointRequester (C := rejecting))
                      (info.NewClient node (30000 * Millisecond)) 0%nat)))
     = Some (RemoteError 7 "bad request")
  /\ fst (fst (fst (info.GetNodeID
                      (I := rpc.Requester_EndpointRequester (C := rejecting))
                      (info.NewClient node (30000 * Millisecond)) 0%nat)))
     = ""
  /\ fst (fst (fst (info.IsBootstrapped
                      (I := rpc.Requester_EndpointRequester (C := rejecting))
                      (info.NewClient node (30000 * Millisecond)) "X" 0%nat)))
     = false.
Proof.
  assert (Hkeep :
    keeps_reply_on_error (I := rpc.Requester_EndpointRequester (C := rejecting))
      (info.requester (info.NewClient node (30000 * Millisecond)))).
  { intros method params t reply e.
    apply (rpc_facts.SendRequest_error_keeps_reply (C := rejecting)). }
  assert (Hkeeph :
    keeps_reply_on_error (I := rpc.Requester_EndpointRequester (C := rejecting))
      (health.requester (health.NewClient node (30000 * Millisecond)))).
  { intros method params t reply e.
    apply (rpc_facts.SendRequest_error_keeps_reply (C := rejecting)). }
  split; [exact Hkeep|]. split; [reflexivity|].
  destruct (info_methods_return_zero_with_an_error
              (I := rpc.Requester_EndpointRequester (C := rejecting))
              (info.NewClient node (30000 * Millisecond))
              (health.NewClient node (30000 * Millisecond)) Hkeep Hkeeph 0%nat)
    as (Hnode & _ & _ & _ & _ & Hboot & _).
  split.
  - apply Hnode. cbn. discriminate.
  - apply (Hboot "X"). cbn. discriminate.
Defined.

(** [IssueTx] against the node that fails and still writes the reply:
    the ID written does not come back. *)
Lemma avm_guarded_methods_return_nothing_with_an_error_witness :
  error_value (avm.CallIssueTx [x2a]) = Some (AnID Empty)
  /\ snd (fst (SendRequest scribbler "issueTx" NoArgs TJSONTxID (zero TJSONTxID) 0%nat))
     = Some DecodingError
  /\ JSONTxID_TxID
       (fst (fst (SendRequest scribbler "issueTx" NoArgs TJSONTxID (zero TJSONTxID) 0%nat)))
     = [xff]
  /\ fst (fst (fst (Call_do (I := Scribbler_EndpointRequester)
                      {| avm.requester := scribbler |} (avm.CallIssueTx [x2a]) 0%nat)))
     = AnID Empty.
Proof.
  split; [reflexivity|]. split; [reflexivity|]. split; [reflexivity|].
  apply (avm_guarded_methods_return_nothing_with_an_error
           (I := Scribbler_EndpointRequester) {| avm.requester := scribbler |}
           (avm.CallIssueTx [x2a]) (AnID Empty) 0%nat).
  - reflexivity.
  - cbn. discriminate.
Defined.

(** [Import] on the X chain over the server that rejects every request. *)
Lemma avm_unguarded_methods_return_zero_with_an_error_witness :
  keeps_reply_on_error (I := rpc.Requester_EndpointRequester (C := rejecting))
    (avm.requester (avm.NewClient node "X" (30000 * Millisecond)))
  /\ snd (fst (fst (avm.Import (I := rpc.Requester_EndpointRequester (C := rejecting))
                      (avm.NewClient node "X" (30000 * Millisecond))
                      user "X-avax1to" "P" 0%nat)))
     = Some (RemoteError 7 "bad request")
  /\ fst (fst (fst (avm.Import (I := rpc.Requester_EndpointRequester (C := rejecting))
                      (avm.NewClient node "X" (30000 * Millisecond))
                      user "X-avax1to" "P" 0%nat)))
     = ID_zero.
Proof.
  assert (Hkeep :
    keeps_reply_on_error (I := rpc.Requester_EndpointRequester (C := rejecting))
      (avm.requester (avm.NewClient node "X" (30000 * Millisecond)))).
  { intros method params t reply e.
    apply (rpc_facts.SendRequest_error_keeps_reply (C := rejecting)). }
  split; [exact Hkeep|]. split; [reflexivity|].
  destruct (avm_unguarded_methods_return_zero_with_an_error
              (I := rpc.Requester_EndpointRequester (C := rejecting))
              (avm.NewClient node "X" (30000 * Millisecond)) Hkeep 0%nat)
    as (_ & _ & _ & Himport & _).
  apply (Himport user "X-avax1to" "P"). cbn. discriminate.
Defined.

(** Against the node that fails and still writes the reply, [Import] and
    [ImportAVAX] differ: [Import] returns the ID written. *)
Lemma Import_agrees_with_ImportAVAX_iff_witness :
  avm.Import (I := Scribbler_EndpointRequester) {| avm.requester := scribbler |}
    user "X-avax1to" "P" 0%nat
  <> avm.ImportAVAX (I := Scribbler_EndpointRequester) {| avm.requester := scribbler |}
       user "X-avax1to" "P" 0%nat
  /\ fst (fst (avm.Import (I := Scribbler_EndpointRequester)
                 {| avm.requester := scribbler |} user "X-avax1to" "P" 0%nat))
     = ([xff], Some DecodingError).
Proof.
  split; [|reflexivity].
  intros Heq.
  apply (Import_agrees_with_ImportAVAX_iff (I := Scribbler_EndpointRequester)
           {| avm.requester := scribbler |} user "X-avax1to" "P" 0%nat) in Heq.
  destruct Heq as [Hnone | Hempty]; [discriminate Hnone | discriminate Hempty].
Defined.

End clients_extras_runs.
